(** * vscode-R plot viewer and Live Share bridge: shallow embedding

    The development follows [src/plotViewer/index.ts] (classes
    [HttpgdManager] and [HttpgdViewer]) and [src/liveShare/shareCommands.ts]
    (function [normalizeRequestArgs] and the [Commands] table).

    Conventions of the embedding:
    - a JS [number] holding a pixel size, a length, an index or a timeout is
      a [Z]; the zoom factor is an IEEE 754 binary64 [float], as in JS;
    - an optional value ([x?: T], [T | undefined]) is an [option];
    - an [async] method is cut at its suspension points: the part that runs
      synchronously is a function, what is still pending is recorded as data
      (a [Task]) in the trace of effects;
    - calls into the editor, the webview and the httpgd client are recorded
      as [Effect]s, in the order the code issues them. *)

From Stdlib Require Import ZArith Floats.
From stdpp Require Import base tactics option list strings pretty gmap.

Set Warnings "-inexact-float,-register-all".

(** ** JavaScript operators on optional strings *)

Abbreviation HttpgdPlotId := string (only parsing).
Abbreviation HttpgdRendererId := string (only parsing).

(** Truthiness of [x?: string]: [undefined] and the empty string are falsy. *)
Definition truthy (x : option string) : bool :=
  match x with
  | Some s => negb (String.eqb s "")
  | None => false
  end.

(** [a || b] *)
Definition js_or (a b : option string) : option string :=
  if truthy a then a else b.

(** [a ?? b] with [b] possibly undefined as well *)
Definition nullish {A} (a b : option A) : option A :=
  match a with
  | Some _ => a
  | None => b
  end.

(** [arr[i]] for a numeric index: [undefined] outside the array. *)
Definition js_index {A} (arr : list A) (i : Z) : option A :=
  if decide (i < 0)%Z then None else arr !! Z.to_nat i.

(** [arr.find(p)] and [arr.findIndex(p)] *)
Definition js_find {A} (P : A → Prop) `{!∀ x, Decision (P x)} (arr : list A) : option A :=
  snd <$> list_find P arr.

Definition js_findIndex {A} (P : A → Prop) `{!∀ x, Decision (P x)} (arr : list A) : Z :=
  match list_find P arr with
  | Some (i, _) => Z.of_nat i
  | None => (-1)%Z
  end.

(** ** Plots and the httpgd client *)

Module HttpgdPlot.
Record t := mk {
  id : HttpgdPlotId;
  data : string;
  height : Z;
  width : Z;
  zoom : float
}.
End HttpgdPlot.

Module HttpgdIdResponse.
Record t := mk { id : HttpgdPlotId }.
End HttpgdIdResponse.

(** Argument object of [api.getPlot]; every property is optional. *)
Record PlotRequest := mkPlotRequest {
  req_id : option HttpgdPlotId;
  req_height : option Z;
  req_width : option Z;
  req_zoom : option float;
  req_renderer : option HttpgdRendererId
}.

Record HttpgdRenderer := mkHttpgdRenderer {
  renderer_id : HttpgdRendererId;
  renderer_name : string;
  renderer_ext : string;
  renderer_descr : string
}.

(** The httpgd client object, seen from the viewer: the plot ids the server
    currently knows, the body text of a render request ([None] when the
    response is undefined), and the static list of renderers. *)
Record Httpgd := mkHttpgd {
  getPlots : list HttpgdIdResponse.t;
  getPlot : PlotRequest → option string;
  getRenderers : list HttpgdRenderer
}.

(** ** Pending work and effects *)

(** One element of [newPlotPromises] in [refreshPlots]: either a render
    request issued by [getPlotContent], or the cached plot. *)
Inductive PlotPromise :=
  | Fetching (id : HttpgdPlotId) (w h : Z) (z : float)
  | Cached (plt : HttpgdPlot.t).

(** What [refreshPlots] has computed when it suspends at [Promise.all]. *)
Record RefreshTask := mkRefreshTask {
  nPlots : nat;
  newPlotPromises : list PlotPromise;
  task_redraw : bool
}.

Inductive Task :=
  | RefreshPending (t : RefreshTask)
  | ResizePending (id : HttpgdPlotId) (w h : Z) (z : float)
  | ContextPending
  | ReconnectPending.

Inductive TimerCallback :=
  | ResizeCallback
  | RefreshCallback (plotsIdResponse : list HttpgdIdResponse.t) (redraw force : bool).

Record Timer := mkTimer { delay : Z; callback : TimerCallback }.

(** [PreviewPlotLayout] is a union of string literals; at run time the
    field holds whatever string [handleCommand] or the configuration hands
    in. *)
Abbreviation PreviewPlotLayout := string (only parsing).

Definition multirow : PreviewPlotLayout := "multirow".
Definition scroll : PreviewPlotLayout := "scroll".
Definition hidden : PreviewPlotLayout := "hidden".

Record WebviewPanel := mkWebviewPanel { active : bool }.

Inductive JsError := TypeError.

(** Data handed to the [ejs] templates by [makeEjsData] (the path helpers
    and the css path are left to the template engine). *)
Record EjsData := mkEjsData {
  overwriteStyles : bool;
  ejs_previewPlotLayout : PreviewPlotLayout;
  ejs_activePlot : option HttpgdPlotId;
  ejs_plots : list HttpgdPlot.t;
  largePlot : option HttpgdPlot.t;
  ejs_host : string;
  ejs_plot : option HttpgdPlot.t
}.

(** A rendered page, kept symbolic: which template on which data. *)
Inductive Html :=
  | EmptyHtml
  | IndexEjs (d : EjsData)
  | SmallPlotEjs (d : EjsData).

(** Messages of [webviewMessages.ts] sent to the webview. *)
Inductive InMessage :=
  | FocusPlotMessage (plotId : HttpgdPlotId)
  | UpdatePlotMessage (plotId : HttpgdPlotId) (svg : string)
  | HidePlotMessage (plotId : HttpgdPlotId)
  | AddPlotMessage (html : Html)
  | ToggleStyleMessage (useOverwrites : bool)
  | ToggleFullWindowMessage (useFullWindow : bool)
  | PreviewPlotLayoutMessage (style : PreviewPlotLayout).

Inductive Effect :=
  | PostMessage (msg : InMessage)
  | CreateWebviewPanel (title : string) (preserveFocus : bool)
  | Reveal (preserveFocus : bool)
  | SetHtml (html : Html)
  | RegisterActiveViewer
  | SetContext (key : string) (value : bool)
  | ApiConnect
  | ApiDisconnect
  | ApiGetPlot (req : PlotRequest)
  | ApiRemovePlot (id : HttpgdPlotId)
  | Await (t : Task)
  | SetTimeout (t : Timer)
  | ClearTimeout (t : option Timer)
  | SetInterval (ms : Z)
  | UnhandledRejection (e : JsError)
  | ShowWarningMessage (text : string)
  | ShowErrorMessage (text : string)
  | ShowInformationMessage (text : string)
  | ShowQuickPick (items : list HttpgdRenderer)
  | ShowSaveDialog (renderer : option HttpgdRenderer) (lastExportUri : option string)
  | CreateWriteStream (outFile : string)
  | PipeToFile (body : string) (outFile : string).

(** ** The viewer object *)

Record HttpgdViewer := mkHttpgdViewer {
  host : string;
  token : option string;
  webviewPanel : option WebviewPanel;
  api : Httpgd;
  plots : list HttpgdPlot.t;
  activePlot : option HttpgdPlotId;
  hiddenPlots : list HttpgdPlotId;
  stripStyles : bool;
  previewPlotLayout : PreviewPlotLayout;
  fullWindow : bool;
  viewHeight : Z;
  viewWidth : Z;
  plotHeight : Z;
  plotWidth : Z;
  zoom : float;
  resizeTimeout : option Timer;
  resizeTimeoutLength : Z;
  refreshTimeout : option Timer;
  refreshTimeoutLength : Z;
  lastExportUri : option string;
  showOptions_preserveFocus : bool;
  pid : option string;
  guestConnectionTimer : bool
}.

Definition set_webviewPanel (x : option WebviewPanel) (v : HttpgdViewer) : HttpgdViewer :=
  mkHttpgdViewer (host v) (token v) x (api v) (plots v) (activePlot v) (hiddenPlots v)
    (stripStyles v) (previewPlotLayout v) (fullWindow v) (viewHeight v) (viewWidth v)
    (plotHeight v) (plotWidth v) (zoom v) (resizeTimeout v) (resizeTimeoutLength v)
    (refreshTimeout v) (refreshTimeoutLength v) (lastExportUri v)
    (showOptions_preserveFocus v) (pid v) (guestConnectionTimer v).

Definition set_plots (x : list HttpgdPlot.t) (v : HttpgdViewer) : HttpgdViewer :=
  mkHttpgdViewer (host v) (token v) (webviewPanel v) (api v) x (activePlot v)
    (hiddenPlots v) (stripStyles v) (previewPlotLayout v) (fullWindow v) (viewHeight v)
    (viewWidth v) (plotHeight v) (plotWidth v) (zoom v) (resizeTimeout v)
    (resizeTimeoutLength v) (refreshTimeout v) (refreshTimeoutLength v) (lastExportUri v)
    (showOptions_preserveFocus v) (pid v) (guestConnectionTimer v).

Definition set_activePlot (x : option HttpgdPlotId) (v : HttpgdViewer) : HttpgdViewer :=
  mkHttpgdViewer (host v) (token v) (webviewPanel v) (api v) (plots v) x (hiddenPlots v)
    (stripStyles v) (previewPlotLayout v) (fullWindow v) (viewHeight v) (viewWidth v)
    (plotHeight v) (plotWidth v) (zoom v) (resizeTimeout v) (resizeTimeoutLength v)
    (refreshTimeout v) (refreshTimeoutLength v) (lastExportUri v)
    (showOptions_preserveFocus v) (pid v) (guestConnectionTimer v).

Definition set_hiddenPlots (x : list HttpgdPlotId) (v : HttpgdViewer) : HttpgdViewer :=
  mkHttpgdViewer (host v) (token v) (webviewPanel v) (api v) (plots v) (activePlot v) x
    (stripStyles v) (previewPlotLayout v) (fullWindow v) (viewHeight v) (viewWidth v)
    (plotHeight v) (plotWidth v) (zoom v) (resizeTimeout v) (resizeTimeoutLength v)
    (refreshTimeout v) (refreshTimeoutLength v) (lastExportUri v)
    (showOptions_preserveFocus v) (pid v) (guestConnectionTimer v).

Definition set_stripStyles (x : bool) (v : HttpgdViewer) : HttpgdViewer :=
  mkHttpgdViewer (host v) (token v) (webviewPanel v) (api v) (plots v) (activePlot v)
    (hiddenPlots v) x (previewPlotLayout v) (fullWindow v) (viewHeight v) (viewWidth v)
    (plotHeight v) (plotWidth v) (zoom v) (resizeTimeout v) (resizeTimeoutLength v)
    (refreshTimeout v) (refreshTimeoutLength v) (lastExportUri v)
    (showOptions_preserveFocus v) (pid v) (guestConnectionTimer v).

Definition set_previewPlotLayout (x : PreviewPlotLayout) (v : HttpgdViewer) : HttpgdViewer :=
  mkHttpgdViewer (host v) (token v) (webviewPanel v) (api v) (plots v) (activePlot v)
    (hiddenPlots v) (stripStyles v) x (fullWindow v) (viewHeight v) (viewWidth v)
    (plotHeight v) (plotWidth v) (zoom v) (resizeTimeout v) (resizeTimeoutLength v)
    (refreshTimeout v) (refreshTimeoutLength v) (lastExportUri v)
    (showOptions_preserveFocus v) (pid v) (guestConnectionTimer v).

Definition set_fullWindow (x : bool) (v : HttpgdViewer) : HttpgdViewer :=
  mkHttpgdViewer (host v) (token v) (webviewPanel v) (api v) (plots v) (activePlot v)
    (hiddenPlots v) (stripStyles v) (previewPlotLayout v) x (viewHeight v) (viewWidth v)
    (plotHeight v) (plotWidth v) (zoom v) (resizeTimeout v) (resizeTimeoutLength v)
    (refreshTimeout v) (refreshTimeoutLength v) (lastExportUri v)
    (showOptions_preserveFocus v) (pid v) (guestConnectionTimer v).

Definition set_viewHeight (x : Z) (v : HttpgdViewer) : HttpgdViewer :=
  mkHttpgdViewer (host v) (token v) (webviewPanel v) (api v) (plots v) (activePlot v)
    (hiddenPlots v) (stripStyles v) (previewPlotLayout v) (fullWindow v) x (viewWidth v)
    (plotHeight v) (plotWidth v) (zoom v) (resizeTimeout v) (resizeTimeoutLength v)
    (refreshTimeout v) (refreshTimeoutLength v) (lastExportUri v)
    (showOptions_preserveFocus v) (pid v) (guestConnectionTimer v).

Definition set_viewWidth (x : Z) (v : HttpgdViewer) : HttpgdViewer :=
  mkHttpgdViewer (host v) (token v) (webviewPanel v) (api v) (plots v) (activePlot v)
    (hiddenPlots v) (stripStyles v) (previewPlotLayout v) (fullWindow v) (viewHeight v) x
    (plotHeight v) (plotWidth v) (zoom v) (resizeTimeout v) (resizeTimeoutLength v)
    (refreshTimeout v) (refreshTimeoutLength v) (lastExportUri v)
    (showOptions_preserveFocus v) (pid v) (guestConnectionTimer v).

Definition set_plotHeight (x : Z) (v : HttpgdViewer) : HttpgdViewer :=
  mkHttpgdViewer (host v) (token v) (webviewPanel v) (api v) (plots v) (activePlot v)
    (hiddenPlots v) (stripStyles v) (previewPlotLayout v) (fullWindow v) (viewHeight v)
    (viewWidth v) x (plotWidth v) (zoom v) (resizeTimeout v) (resizeTimeoutLength v)
    (refreshTimeout v) (refreshTimeoutLength v) (lastExportUri v)
    (showOptions_preserveFocus v) (pid v) (guestConnectionTimer v).

Definition set_plotWidth (x : Z) (v : HttpgdViewer) : HttpgdViewer :=
  mkHttpgdViewer (host v) (token v) (webviewPanel v) (api v) (plots v) (activePlot v)
    (hiddenPlots v) (stripStyles v) (previewPlotLayout v) (fullWindow v) (viewHeight v)
    (viewWidth v) (plotHeight v) x (zoom v) (resizeTimeout v) (resizeTimeoutLength v)
    (refreshTimeout v) (refreshTimeoutLength v) (lastExportUri v)
    (showOptions_preserveFocus v) (pid v) (guestConnectionTimer v).

Definition set_zoom (x : float) (v : HttpgdViewer) : HttpgdViewer :=
  mkHttpgdViewer (host v) (token v) (webviewPanel v) (api v) (plots v) (activePlot v)
    (hiddenPlots v) (stripStyles v) (previewPlotLayout v) (fullWindow v) (viewHeight v)
    (viewWidth v) (plotHeight v) (plotWidth v) x (resizeTimeout v) (resizeTimeoutLength v)
    (refreshTimeout v) (refreshTimeoutLength v) (lastExportUri v)
    (showOptions_preserveFocus v) (pid v) (guestConnectionTimer v).

Definition set_resizeTimeout (x : option Timer) (v : HttpgdViewer) : HttpgdViewer :=
  mkHttpgdViewer (host v) (token v) (webviewPanel v) (api v) (plots v) (activePlot v)
    (hiddenPlots v) (stripStyles v) (previewPlotLayout v) (fullWindow v) (viewHeight v)
    (viewWidth v) (plotHeight v) (plotWidth v) (zoom v) x (resizeTimeoutLength v)
    (refreshTimeout v) (refreshTimeoutLength v) (lastExportUri v)
    (showOptions_preserveFocus v) (pid v) (guestConnectionTimer v).

Definition set_refreshTimeout (x : option Timer) (v : HttpgdViewer) : HttpgdViewer :=
  mkHttpgdViewer (host v) (token v) (webviewPanel v) (api v) (plots v) (activePlot v)
    (hiddenPlots v) (stripStyles v) (previewPlotLayout v) (fullWindow v) (viewHeight v)
    (viewWidth v) (plotHeight v) (plotWidth v) (zoom v) (resizeTimeout v)
    (resizeTimeoutLength v) x (refreshTimeoutLength v) (lastExportUri v)
    (showOptions_preserveFocus v) (pid v) (guestConnectionTimer v).

Definition set_lastExportUri (x : option string) (v : HttpgdViewer) : HttpgdViewer :=
  mkHttpgdViewer (host v) (token v) (webviewPanel v) (api v) (plots v) (activePlot v)
    (hiddenPlots v) (stripStyles v) (previewPlotLayout v) (fullWindow v) (viewHeight v)
    (viewWidth v) (plotHeight v) (plotWidth v) (zoom v) (resizeTimeout v)
    (resizeTimeoutLength v) (refreshTimeout v) (refreshTimeoutLength v) x
    (showOptions_preserveFocus v) (pid v) (guestConnectionTimer v).

Definition set_guestConnectionTimer (x : bool) (v : HttpgdViewer) : HttpgdViewer :=
  mkHttpgdViewer (host v) (token v) (webviewPanel v) (api v) (plots v) (activePlot v)
    (hiddenPlots v) (stripStyles v) (previewPlotLayout v) (fullWindow v) (viewHeight v)
    (viewWidth v) (plotHeight v) (plotWidth v) (zoom v) (resizeTimeout v)
    (resizeTimeoutLength v) (refreshTimeout v) (refreshTimeoutLength v) (lastExportUri v)
    (showOptions_preserveFocus v) (pid v) x.

(** Options object passed to the constructor ([HttpgdViewerOptions]; the
    properties are those the constructor and [showViewer] read and write). *)
Record HttpgdViewerOptions := mkHttpgdViewerOptions {
  opt_token : option string;
  opt_preserveFocus : option bool;
  opt_stripStyles : option bool;
  opt_previewPlotLayout : option PreviewPlotLayout;
  opt_refreshTimeoutLength : option Z;
  opt_resizeTimeoutLength : option Z;
  opt_fullWindow : option bool
}.

(** What the surroundings answer: the editor (panels, pickers), the Live
    Share role, the settings read by [config()], the [URL] class and the
    httpgd server behind a host. *)
Record Env := mkEnv {
  createWebviewPanel : WebviewPanel;
  showQuickPick : option HttpgdRendererId;
  showSaveDialog : option string;
  isGuest : bool;
  isHost : bool;
  autoShareBrowser : bool;
  shareServer : bool;
  conf_colorTheme : string;
  conf_plotPreviewLayout : PreviewPlotLayout;
  conf_refreshInterval : Z;
  conf_resizeInterval : Z;
  conf_fullWindowMode : bool;
  URL : string → option (string * option string);
  newHttpgd : string → option string → Httpgd
}.

(** Result of running the synchronous part of a method. [thrown] is set when
    the method throws (for an [async] method: its promise is rejected). *)
Record Run := mkRun {
  state : HttpgdViewer;
  effects : list Effect;
  thrown : option JsError
}.

Definition ok (v : HttpgdViewer) (es : list Effect) : Run := mkRun v es None.

Section Viewer.
Context (env : Env).

(** *** Active plot by index: [get activeIndex], [set activeIndex] *)

Definition getIndex (v : HttpgdViewer) (id : HttpgdPlotId) : Z :=
  js_findIndex (λ plt, HttpgdPlot.id plt = id) (plots v).

Definition activeIndex (v : HttpgdViewer) : Z :=
  match activePlot v with
  | Some id => if truthy (Some id) then getIndex v id else (-1)%Z
  | None => (-1)%Z
  end.

(** [this.plots[ind].id] is read after clamping, so the index is in range
    (lemma [set_activeIndex_defined]). *)
Definition set_activeIndex (ind : Z) (v : HttpgdViewer) : HttpgdViewer :=
  if decide (length (plots v) = 0) then set_activePlot None v
  else
    let ind := Z.max ind 0 in
    let ind := Z.min ind (Z.of_nat (length (plots v)) - 1) in
    set_activePlot (HttpgdPlot.id <$> js_index (plots v) ind) v.

(** *** Talking to the webview *)

Definition postWebviewMessage (v : HttpgdViewer) (msg : InMessage) : list Effect :=
  match webviewPanel v with
  | Some _ => [PostMessage msg]
  | None => []
  end.

(** [setContextValues] up to its first [await]; the two later [setContext]
    calls read the state when they run and stay pending. *)
Definition setContextValues (v : HttpgdViewer) (mightBeInBackground : bool) : list Effect :=
  if default false (active <$> webviewPanel v) then
    [RegisterActiveViewer; SetContext "r.plot.active" true; Await ContextPending]
  else if negb mightBeInBackground then [SetContext "r.plot.active" false]
  else [].

Definition _focusPlot (v : HttpgdViewer) (plotId : option HttpgdPlotId) : list Effect :=
  match nullish plotId (activePlot v) with
  | Some id =>
      if truthy (Some id) then
        postWebviewMessage v (FocusPlotMessage id) ++ setContextValues v false
      else []
  | None => []
  end.

Definition _hidePlot (v : HttpgdViewer) (id : HttpgdPlotId) : list Effect :=
  postWebviewMessage v (HidePlotMessage id).

Definition updatePlot (v : HttpgdViewer) (plt : HttpgdPlot.t) : list Effect :=
  postWebviewMessage v (UpdatePlotMessage (HttpgdPlot.id plt) (HttpgdPlot.data plt)).

Definition toggleStyle (v : HttpgdViewer) (force : option bool) : HttpgdViewer * list Effect :=
  let v := set_stripStyles (default (negb (stripStyles v)) force) v in
  (v, postWebviewMessage v (ToggleStyleMessage (stripStyles v))).

Definition toggleFullWindow (v : HttpgdViewer) (force : option bool) : HttpgdViewer * list Effect :=
  let v := set_fullWindow (default (negb (fullWindow v)) force) v in
  (v, postWebviewMessage v (ToggleFullWindowMessage (fullWindow v))).

Definition togglePreviewPlots (v : HttpgdViewer) (force : option PreviewPlotLayout)
    : HttpgdViewer * list Effect :=
  let v :=
    if truthy force then set_previewPlotLayout (default "" force) v
    else if decide (previewPlotLayout v = multirow) then set_previewPlotLayout scroll v
    else if decide (previewPlotLayout v = scroll) then set_previewPlotLayout hidden v
    else if decide (previewPlotLayout v = hidden) then set_previewPlotLayout multirow v
    else v in
  (v, postWebviewMessage v (PreviewPlotLayoutMessage (previewPlotLayout v))).

(** *** Rendering requests *)

Definition svgpRequest (id : HttpgdPlotId) (w h : Z) (z : float) : PlotRequest :=
  mkPlotRequest (Some id) (Some h) (Some w) (Some z) (Some "svgp").

(** [getPlotContent] once the response is there: [svg] is the body text,
    or [''] when there is none. ([viewHeight] and [viewWidth] are numbers
    from construction on: the two [??=] assignments never assign.) *)
Definition getPlotContent (v : HttpgdViewer) (id : HttpgdPlotId) (w h : Z) (z : float)
    : HttpgdPlot.t :=
  let svg := default "" (getPlot (api v) (svgpRequest id w h z)) in
  HttpgdPlot.mk id svg h w z.

Definition makeEjsData (v : HttpgdViewer) : EjsData :=
  mkEjsData (stripStyles v) (previewPlotLayout v) (activePlot v) (plots v)
    (js_index (plots v) (activeIndex v)) (host v) None.

(** [showOptions] is reduced to its [preserveFocus] property; without the
    argument the viewer's own [showOptions] are used. *)
Definition makeNewWebview (v : HttpgdViewer) (showOptions : option bool)
    (titleSuffix : option string) : WebviewPanel * list Effect :=
  let title :=
    match titleSuffix with
    | Some s => if truthy (Some s) then "R Plot (" +:+ s +:+ ")" else "R Plot"
    | None => "R Plot"
    end in
  (createWebviewPanel env,
   [CreateWebviewPanel title (default (showOptions_preserveFocus v) showOptions)]).

Definition refreshHtml (v : HttpgdViewer) : HttpgdViewer * list Effect :=
  let '(v, es0) :=
    match webviewPanel v with
    | Some _ => (v, [])
    | None =>
        let '(p, es) := makeNewWebview v None (pid v) in (set_webviewPanel (Some p) v, es)
    end in
  let es1 := [SetHtml EmptyHtml; SetHtml (IndexEjs (makeEjsData v))] in
  let '(v, es2) := toggleFullWindow v (Some (fullWindow v)) in
  (v, es0 ++ es1 ++ es2 ++ setContextValues v true).

(** *** [refreshPlots], cut at [await Promise.all(newPlotPromises)] *)

Definition refreshPlots_begin (v : HttpgdViewer)
    (plotsIdResponse : list HttpgdIdResponse.t) (redraw force : bool) : RefreshTask :=
  let plotIds := HttpgdIdResponse.id <$> plotsIdResponse in
  let plotIds := filter (λ id, id ∉ hiddenPlots v) plotIds in
  let promise (id : HttpgdPlotId) :=
    match js_find (λ plt, HttpgdPlot.id plt = id) (plots v) with
    | Some plot =>
        if force || bool_decide (Some id = activePlot v)
        then Fetching id (viewWidth v) (viewHeight v) (zoom v)
        else Cached plot
    | None => Fetching id (viewWidth v) (viewHeight v) (zoom v)
    end in
  mkRefreshTask (length (plots v)) (promise <$> plotIds) redraw.

(** The render requests a suspended refresh has sent. *)
Definition requests (t : RefreshTask) : list Effect :=
  omap (λ p, match p with
             | Fetching id w h z => Some (ApiGetPlot (svgpRequest id w h z))
             | Cached _ => None
             end) (newPlotPromises t).

(** Calling an [async] refresh without interleaving: requests go out, the
    rest is pending. *)
Definition spawnRefresh (v : HttpgdViewer)
    (plotsIdResponse : list HttpgdIdResponse.t) (redraw force : bool) : list Effect :=
  let t := refreshPlots_begin v plotsIdResponse redraw force in
  requests t ++ [Await (RefreshPending t)].

(** *** [focusPlot] and navigation *)

Definition focusPlot (v : HttpgdViewer) (id : option HttpgdPlotId) : Run :=
  let v := set_activePlot (js_or id (activePlot v)) v in
  match js_index (plots v) (activeIndex v) with
  | None => mkRun v [] (Some TypeError)
  | Some plt =>
      if bool_decide (HttpgdPlot.height plt ≠ viewHeight v)
         || bool_decide (HttpgdPlot.width plt ≠ viewHeight v)
         || negb (PrimFloat.eqb (HttpgdPlot.zoom plt) (zoom v))
      then ok v (spawnRefresh v (getPlots (api v)) false false)
      else ok v (_focusPlot v None)
  end.

Definition nextPlot (v : HttpgdViewer) (last : option bool) : Run :=
  let ind :=
    if default false last then (Z.of_nat (length (plots v)) - 1)%Z
    else (activeIndex v + 1)%Z in
  focusPlot (set_activeIndex ind v) None.

Definition prevPlot (v : HttpgdViewer) (first : option bool) : Run :=
  let ind := if default false first then 0%Z else (activeIndex v - 1)%Z in
  focusPlot (set_activeIndex ind v) None.

(** [addPlot] calls [void this.focusPlot(plt.id)]: a rejection of that
    promise is not handled by anyone. *)
Definition addPlot (v : HttpgdViewer) (plt : HttpgdPlot.t) : HttpgdViewer * list Effect :=
  let d := makeEjsData v in
  let ejsData :=
    mkEjsData (overwriteStyles d) (ejs_previewPlotLayout d) (ejs_activePlot d)
      (ejs_plots d) (largePlot d) (ejs_host d) (Some plt) in
  let es := postWebviewMessage v (AddPlotMessage (SmallPlotEjs ejsData)) in
  let r := focusPlot v (Some (HttpgdPlot.id plt)) in
  let rejected :=
    match thrown r with
    | Some e => [UnhandledRejection e]
    | None => []
    end in
  (state r, es ++ effects r ++ rejected ++ setContextValues (state r) false).

Definition resolve (v : HttpgdViewer) (p : PlotPromise) : HttpgdPlot.t :=
  match p with
  | Fetching id w h z => getPlotContent v id w h z
  | Cached plt => plt
  end.

(** The loop [for (const plt of this.plots)] of the incremental branch. *)
Definition patchPlots (oldPlotIds : list HttpgdPlotId) (v : HttpgdViewer)
    (ps : list HttpgdPlot.t) : HttpgdViewer * list Effect :=
  foldl (λ acc plt,
           if decide (HttpgdPlot.id plt ∈ oldPlotIds)
           then (acc.1, acc.2 ++ updatePlot acc.1 plt)
           else let '(v', es) := addPlot acc.1 plt in (v', acc.2 ++ es))
        (v, []) ps.

Definition refreshPlots_resume (v : HttpgdViewer) (t : RefreshTask)
    : HttpgdViewer * list Effect :=
  let newPlots := resolve v <$> newPlotPromises t in
  let oldPlotIds := HttpgdPlot.id <$> plots v in
  let v := set_plots newPlots v in
  let v :=
    if decide (length (plots v) ≠ nPlots t)
    then set_activePlot (HttpgdPlot.id <$> last (plots v)) v
    else v in
  if task_redraw t || bool_decide (webviewPanel v = None) then refreshHtml v
  else
    let '(v, es) := patchPlots oldPlotIds v (plots v) in
    (v, es ++ _focusPlot v None).

(** A refresh that nothing interleaves with. *)
Definition refreshPlots (v : HttpgdViewer)
    (plotsIdResponse : list HttpgdIdResponse.t) (redraw force : bool)
    : HttpgdViewer * list Effect :=
  let t := refreshPlots_begin v plotsIdResponse redraw force in
  let '(v', es) := refreshPlots_resume v t in
  (v', requests t ++ es).

Definition refreshPlotsDelayed (v : HttpgdViewer)
    (plotsIdResponse : list HttpgdIdResponse.t) (redraw force : bool)
    : HttpgdViewer * list Effect :=
  if decide (refreshTimeoutLength v = 0%Z)
  then (v, spawnRefresh v plotsIdResponse redraw force)
  else
    let t := mkTimer (refreshTimeoutLength v) (RefreshCallback plotsIdResponse redraw force) in
    (set_refreshTimeout (Some t) v, [ClearTimeout (refreshTimeout v); SetTimeout t]).

(** *** Hiding, closing, resetting *)

Definition hidePlot (v : HttpgdViewer) (id : option HttpgdPlotId)
    : HttpgdViewer * list Effect :=
  match nullish id (activePlot v) with
  | Some id =>
      if truthy (Some id) then
        let tmpIndex := activeIndex v in
        let v := set_hiddenPlots (hiddenPlots v ++ [id]) v in
        let v := set_plots (filter (λ plt, HttpgdPlot.id plt ∉ hiddenPlots v) (plots v)) v in
        let '(v, es) :=
          if decide (Some id = activePlot v)
          then let v := set_activeIndex tmpIndex v in (v, _focusPlot v None)
          else (v, []) in
        (v, es ++ _hidePlot v id)
      else (v, [])
  | None => (v, [])
  end.

Definition closePlot (v : HttpgdViewer) (id : option HttpgdPlotId)
    : HttpgdViewer * list Effect :=
  match nullish id (activePlot v) with
  | Some id =>
      if truthy (Some id) then
        let '(v, es) := hidePlot v (Some id) in (v, es ++ [ApiRemovePlot id])
      else (v, [])
  | None => (v, [])
  end.

Definition zoom0 : float := 1%float.

Definition resetPlots (v : HttpgdViewer) : HttpgdViewer * list Effect :=
  let v := set_hiddenPlots [] v in
  let v := set_zoom zoom0 v in
  (v, spawnRefresh v (getPlots (api v)) true true).

(** *** Zoom and resize *)

(** [resizePlot] up to [await this.getPlotContent(...)]. *)
Definition resizePlot_begin (v : HttpgdViewer) (id : option HttpgdPlotId) : list Effect :=
  match nullish id (activePlot v) with
  | Some id =>
      if truthy (Some id) then
        [ApiGetPlot (svgpRequest id (viewWidth v) (viewHeight v) (zoom v));
         Await (ResizePending id (viewWidth v) (viewHeight v) (zoom v))]
      else []
  | None => []
  end.

Definition resizePlot_resume (v : HttpgdViewer) (id : HttpgdPlotId) (w h : Z) (z : float)
    : HttpgdViewer * list Effect :=
  let plt := getPlotContent v id w h z in
  let v := set_plotWidth (HttpgdPlot.width plt) v in
  let v := set_plotHeight (HttpgdPlot.height plt) v in
  (v, updatePlot v plt).

Definition zoomOut (v : HttpgdViewer) : HttpgdViewer * list Effect :=
  if PrimFloat.ltb 0 (zoom v) then
    let v := set_zoom (zoom v - 0.1)%float v in
    (v, resizePlot_begin v None)
  else (v, []).

Definition zoomIn (v : HttpgdViewer) : HttpgdViewer * list Effect :=
  let v := set_zoom (zoom v + 0.1)%float v in
  (v, resizePlot_begin v None).

Definition handleResize (v : HttpgdViewer) (height width : Z) (userTriggered : bool)
    : HttpgdViewer * list Effect :=
  let v := set_viewHeight height v in
  let v := set_viewWidth width v in
  if userTriggered || bool_decide (resizeTimeoutLength v = 0%Z) then
    let es :=
      match resizeTimeout v with
      | Some t => [ClearTimeout (Some t)]
      | None => []
      end in
    let v := set_resizeTimeout None v in
    (v, es ++ resizePlot_begin v None)
  else
    match resizeTimeout v with
    | None =>
        let t := mkTimer (resizeTimeoutLength v) ResizeCallback in
        (set_resizeTimeout (Some t) v, [SetTimeout t])
    | Some _ => (v, [])
    end.

(** The resize timer fires: [resizePlot()] starts; when it is done the
    handle is dropped. *)
Definition resizeTimeout_fire (v : HttpgdViewer) : list Effect :=
  resizePlot_begin v None.

Definition resizeTimeout_then (v : HttpgdViewer) : HttpgdViewer :=
  set_resizeTimeout None v.

(** *** Construction, [show], [dispose] *)

Definition startGuestHeartbeat (v : HttpgdViewer) : HttpgdViewer * list Effect :=
  if negb (isGuest env) || guestConnectionTimer v then (v, [])
  else (set_guestConnectionTimer true v, [SetInterval 5000]).

Definition new_HttpgdViewer (host : string) (options : HttpgdViewerOptions)
    (pid : option string) : HttpgdViewer * list Effect :=
  let v :=
    {| host := host;
       token := opt_token options;
       webviewPanel := None;
       api := newHttpgd env host (opt_token options);
       plots := [];
       activePlot := None;
       hiddenPlots := [];
       stripStyles := default true (opt_stripStyles options);
       previewPlotLayout := default multirow (opt_previewPlotLayout options);
       fullWindow := default false (opt_fullWindow options);
       viewHeight := 600;
       viewWidth := 800;
       plotHeight := 600;
       plotWidth := 800;
       zoom := zoom0;
       resizeTimeout := None;
       resizeTimeoutLength := default 1300%Z (opt_refreshTimeoutLength options);
       refreshTimeout := None;
       refreshTimeoutLength := default 10%Z (opt_refreshTimeoutLength options);
       lastExportUri := None;
       showOptions_preserveFocus := default false (opt_preserveFocus options);
       pid := pid;
       guestConnectionTimer := false |} in
  let '(v, es) := startGuestHeartbeat v in
  (v, ApiConnect :: es).

Definition show (v : HttpgdViewer) (preserveFocus : option bool)
    : HttpgdViewer * list Effect :=
  let preserveFocus := default (showOptions_preserveFocus v) preserveFocus in
  let '(v, es) :=
    match webviewPanel v with
    | None =>
        let '(p, es0) := makeNewWebview v (Some preserveFocus) (pid v) in
        let '(v, es1) := refreshHtml (set_webviewPanel (Some p) v) in
        (v, es0 ++ es1)
    | Some _ => (v, [Reveal preserveFocus])
    end in
  let '(v, es') := startGuestHeartbeat v in
  (v, es ++ [RegisterActiveViewer] ++ es').

Definition reconnect (v : HttpgdViewer) : list Effect :=
  [ApiDisconnect; ApiConnect; Await ReconnectPending].

Definition dispose (v : HttpgdViewer) : HttpgdViewer * list Effect :=
  (set_guestConnectionTimer false v, [ApiDisconnect]).

(** *** [exportPlot] *)

Definition exportPlot (v : HttpgdViewer) (id : option HttpgdPlotId)
    (rendererId : option HttpgdRendererId) (outFile : option string) : Run :=
  let id := js_or id (js_or (activePlot v) (HttpgdPlot.id <$> last (plots v))) in
  match js_find (λ plt, Some (HttpgdPlot.id plt) = id) (plots v) with
  | None => ok v [ShowWarningMessage "No plot available for export."]
  | Some plot =>
      let '(rendererId, es1) :=
        if truthy rendererId then (rendererId, [])
        else (showQuickPick env, [ShowQuickPick (getRenderers (api v))]) in
      if negb (truthy rendererId) then ok v es1
      else
        let '(v, outFile, es2) :=
          if truthy outFile then (v, outFile, [])
          else
            let renderer :=
              js_find (λ r, Some (renderer_id r) = rendererId) (getRenderers (api v)) in
            let es := [ShowSaveDialog renderer (lastExportUri v)] in
            match showSaveDialog env with
            | Some outUri => (set_lastExportUri (Some outUri) v, Some outUri, es)
            | None => (v, None, es)
            end in
        match outFile with
        | None => ok v (es1 ++ es2)
        | Some outFile =>
            let req := mkPlotRequest (activePlot v) None None None rendererId in
            let es3 := [ApiGetPlot req; CreateWriteStream outFile] in
            match getPlot (api v) req with
            | Some body => ok v (es1 ++ es2 ++ es3 ++ [PipeToFile body outFile])
            | None => mkRun v (es1 ++ es2 ++ es3) (Some TypeError)
            end
        end
  end.

(** The ['error'] and ['close'] handlers of the write stream. *)
Definition dest_onError (v : HttpgdViewer) (message : string) : HttpgdViewer * list Effect :=
  (v, [ShowErrorMessage ("Export failed: " +:+ message)]).

Definition dest_onClose (v : HttpgdViewer) (outFile : string) : HttpgdViewer * list Effect :=
  (v, [ShowInformationMessage ("Export done: " +:+ outFile)]).

End Viewer.

(** ** The manager: registry of viewers *)

(** Viewer objects are compared by identity ([indexOf], [includes]); a
    reference is the position of the object in [heap], the viewers
    constructed so far. *)
Abbreviation ViewerRef := nat (only parsing).

Record HttpgdManager := mkHttpgdManager {
  viewers : list ViewerRef;
  viewerOptions : HttpgdViewerOptions;
  recentlyActiveViewers : gmap string (list ViewerRef);
  sharedServers : gset string;
  lastPlotUrl : option string;
  lastPlotPid : option string;
  heap : list HttpgdViewer
}.

Inductive ManagerEffect :=
  | OfViewer (r : ViewerRef) (e : Effect)
  | ShareServer (host : string)
  | NotifyGuestPlotManager (urlString : string)
  | ConsoleError (text : string).

Definition MANUAL_PID : string := "__manual__".
Definition GUEST_PID : string := "__guest__".

(** [arr.indexOf(x)] and [arr.splice(i, 1)] followed by [arr.unshift(x)] *)
Definition js_indexOf (x : ViewerRef) (arr : list ViewerRef) : Z :=
  js_findIndex (λ y, y = x) arr.

Definition splice1 (i : Z) (arr : list ViewerRef) : list ViewerRef :=
  if decide (i < 0)%Z then arr else delete (Z.to_nat i) arr.

Section Manager.
Context (env : Env).

Definition new_HttpgdManager : HttpgdManager :=
  {| viewers := [];
     viewerOptions := mkHttpgdViewerOptions None (Some true) None None None None None;
     recentlyActiveViewers := ∅;
     sharedServers := ∅;
     lastPlotUrl := None;
     lastPlotPid := None;
     heap := [] |}.

Definition set_viewers (x : list ViewerRef) (m : HttpgdManager) : HttpgdManager :=
  mkHttpgdManager x (viewerOptions m) (recentlyActiveViewers m) (sharedServers m)
    (lastPlotUrl m) (lastPlotPid m) (heap m).

Definition set_heap (x : list HttpgdViewer) (m : HttpgdManager) : HttpgdManager :=
  mkHttpgdManager (viewers m) (viewerOptions m) (recentlyActiveViewers m) (sharedServers m)
    (lastPlotUrl m) (lastPlotPid m) x.

Definition hostOf (m : HttpgdManager) (r : ViewerRef) : option string :=
  host <$> heap m !! r.

Definition registerActiveViewer (m : HttpgdManager) (viewer : ViewerRef) : HttpgdManager :=
  let ind := js_indexOf viewer (viewers m) in
  let m := if decide (0 ≤ ind)%Z then set_viewers (splice1 ind (viewers m)) m else m in
  set_viewers (viewer :: viewers m) m.

(** What a viewer method does to its parent: each
    [this.parent.registerActiveViewer(this)] it performs. *)
Definition parentCalls (m : HttpgdManager) (r : ViewerRef) (es : list Effect)
    : HttpgdManager :=
  foldl (λ m e, match e with
                | RegisterActiveViewer => registerActiveViewer m r
                | _ => m
                end) m es.

(** [viewer.show(preserveFocus)] on the object behind [r]. *)
Definition showRef (m : HttpgdManager) (r : ViewerRef) (preserveFocus : option bool)
    : HttpgdManager * list ManagerEffect :=
  match heap m !! r with
  | Some v =>
      let '(v', es) := show env v preserveFocus in
      let m := set_heap (<[r := v']> (heap m)) m in
      (parentCalls m r es, OfViewer r <$> es)
  | None => (m, [])
  end.

Definition reconnectRef (m : HttpgdManager) (r : ViewerRef) : list ManagerEffect :=
  match heap m !! r with
  | Some v => OfViewer r <$> reconnect v
  | None => []
  end.

Definition getNewestViewer (m : HttpgdManager) : option ViewerRef :=
  viewers m !! 0.

Definition getRecentViewer (m : HttpgdManager) : option ViewerRef :=
  js_find (λ r, is_Some (heap m !! r ≫= webviewPanel)) (viewers m).

(** [showViewer], with [await shareServer(...)] answered by [env] on the
    spot. An invalid [urlString] makes [new URL] throw after the last plot
    has been recorded. *)
Definition showViewer (m : HttpgdManager) (urlString pid : string)
    : HttpgdManager * list ManagerEffect * option JsError :=
  let m :=
    mkHttpgdManager (viewers m) (viewerOptions m) (recentlyActiveViewers m)
      (sharedServers m) (Some urlString) (Some pid) (heap m) in
  match URL env urlString with
  | None => (m, [], Some TypeError)
  | Some (host, token) =>
      let token := js_or token None in
      let bucket := default [] (recentlyActiveViewers m !! pid) in
      let existingPidViewer := js_find (λ r, hostOf m r = Some host) bucket in
      let ind := js_findIndex (λ r, hostOf m r = Some host) (viewers m) in
      let '(m, bucket, es) :=
        match existingPidViewer with
        | Some existingPidViewer =>
            let existingIndex := js_indexOf existingPidViewer (viewers m) in
            let m :=
              if decide (0 ≤ existingIndex)%Z
              then set_viewers (splice1 existingIndex (viewers m)) m else m in
            let m := set_viewers (existingPidViewer :: viewers m) m in
            let '(m, es) := showRef m existingPidViewer (Some true) in
            let es' :=
              if decide (pid = GUEST_PID) then reconnectRef m existingPidViewer else [] in
            (m, bucket, es ++ es')
        | None =>
            (* [ind >= 0]: [this.viewers.splice(ind, 1)[0]] is the viewer found *)
            match js_index (viewers m) ind with
            | Some viewer =>
                let m := set_viewers (splice1 ind (viewers m)) m in
                let m := set_viewers (viewer :: viewers m) m in
                let '(m, es) := showRef m viewer (Some true) in
                let es' := if decide (pid = GUEST_PID) then reconnectRef m viewer else [] in
                let bucket := if decide (viewer ∈ bucket) then bucket else viewer :: bucket in
                (m, bucket, es ++ es')
            | None =>
                let o := viewerOptions m in
                let o :=
                  {| opt_token := token;
                     opt_preserveFocus := opt_preserveFocus o;
                     opt_stripStyles := Some (bool_decide (conf_colorTheme env = "vscode"));
                     opt_previewPlotLayout := Some (conf_plotPreviewLayout env);
                     opt_refreshTimeoutLength := Some (conf_refreshInterval env);
                     opt_resizeTimeoutLength := Some (conf_resizeInterval env);
                     opt_fullWindow := Some (conf_fullWindowMode env) |} in
                let '(v, es) := new_HttpgdViewer env host o (Some pid) in
                let viewer := length (heap m) in
                let m :=
                  mkHttpgdManager (viewers m) o (recentlyActiveViewers m) (sharedServers m)
                    (lastPlotUrl m) (lastPlotPid m) (heap m ++ [v]) in
                let bucket := viewer :: bucket in
                let es := OfViewer viewer <$> es in
                if isHost env && autoShareBrowser env then
                  if shareServer env then
                    let m :=
                      mkHttpgdManager (viewers m) (viewerOptions m) (recentlyActiveViewers m)
                        ({[host]} ∪ sharedServers m) (lastPlotUrl m) (lastPlotPid m) (heap m) in
                    (m, bucket, es ++ [ShareServer host; NotifyGuestPlotManager urlString])
                  else
                    (m, bucket,
                     es ++ [ShareServer host; ConsoleError "[HttpgdManager] shareServer failed"])
                else (m, bucket, es)
            end
        end in
      (mkHttpgdManager (viewers m) (viewerOptions m)
         (<[pid := bucket]> (recentlyActiveViewers m)) (sharedServers m)
         (lastPlotUrl m) (lastPlotPid m) (heap m),
       es, None)
  end.

Definition showGuestViewer (m : HttpgdManager) (urlString : string) :=
  showViewer m urlString GUEST_PID.

End Manager.

(** ** The Live Share bridge ([shareCommands.ts]) *)

Module Share.

(** Values that travel over the bridge. *)
Inductive JsValue :=
  | JsUndefined
  | JsNull
  | JsBoolean (b : bool)
  | JsNumber (n : float)
  | JsString (s : string)
  | JsObject (props : list (string * JsValue))
  | JsArray (items : list JsValue).

Definition typeof (x : JsValue) : string :=
  match x with
  | JsUndefined => "undefined"
  | JsBoolean _ => "boolean"
  | JsNumber _ => "number"
  | JsString _ => "string"
  | JsNull | JsObject _ | JsArray _ => "object"
  end.

Definition toBoolean (x : JsValue) : bool :=
  match x with
  | JsUndefined | JsNull => false
  | JsBoolean b => b
  | JsNumber n => negb (PrimFloat.eqb n 0 || PrimFloat.is_nan n)
  | JsString s => negb (String.eqb s "")
  | JsObject _ | JsArray _ => true
  end.

Definition getProp (k : string) (props : list (string * JsValue)) : option JsValue :=
  (λ r, r.2.2) <$> list_find (λ kv, kv.1 = k) props.

(** [k in x] for an object [x], asked here only for property names that
    neither arrays nor [Object.prototype] have. *)
Definition js_in (k : string) (x : JsValue) : bool :=
  match x with
  | JsObject props => bool_decide (is_Some (getProp k props))
  | _ => false
  end.

(** [x[i]]; [None] is the [TypeError] of reading a property of
    [undefined] or [null]. *)
Definition js_elem (x : JsValue) (i : nat) : option JsValue :=
  match x with
  | JsUndefined | JsNull => None
  | JsArray items => Some (default JsUndefined (items !! i))
  | JsObject props => Some (default JsUndefined (getProp (pretty i) props))
  | JsString s =>
      Some (match String.get i s with
            | Some c => JsString (String c "")
            | None => JsUndefined
            end)
  | JsBoolean _ | JsNumber _ => Some JsUndefined
  end.

Definition hasContext (first : option JsValue) : bool :=
  match first with
  | Some first =>
      toBoolean first && bool_decide (typeof first = "object")
      && js_in "connection" first && js_in "session" first
  | None => false
  end.

Definition normalizeRequestArgs (args : JsValue) : list JsValue :=
  let list :=
    match args with
    | JsArray items => items
    | _ => [args]
    end in
  let first := list !! 0 in
  if hasContext first then drop 1 list else list.

Inductive MessageType := information | error | warning.

Definition MessageType_value (t : MessageType) : string :=
  match t with
  | information => "information"
  | error => "error"
  | warning => "warning"
  end.

Inductive Callback :=
  | NotifyWorkspaceUpdate | NotifyPlotUpdate | NotifyRequestUpdate | NotifyMessage
  | RequestAttachGuest | RequestRunTextInTerm | RequestDataViewRows | GetFileContent
  | OrderDetach | GetHelpFileContent | NotifyGuestPlotManager.

Inductive Thrown := JsTypeError | JsErrorMsg (message : string).

(** [`${x}`] throws a [TypeError] when [x] has no string conversion: an
    object whose own [toString] is not callable (data holds no functions,
    and the inherited [valueOf] hands the object back), or an array that
    joins such an element. *)
Fixpoint toStringThrows (x : JsValue) : bool :=
  match x with
  | JsObject props => bool_decide (is_Some (getProp "toString" props))
  | JsArray items => existsb toStringThrows items
  | _ => false
  end.

(** Module state the handlers read, and the answers of the calls they
    hand on. *)
Record ShareEnv := mkShareEnv {
  isGuest : bool;
  shareWorkspace : bool;
  rHostService : bool;
  server : bool;
  forwardCommands : bool;
  isGuestAttached : bool;
  globalRHelp : bool;
  globalHttpgdManager : bool;
  (** what the calls handed back to the requester end with: [None] when
      the promise resolves, the error when the call throws or rejects *)
  getHelpFileForPath : JsValue → option Thrown;
  sessionRequest : JsValue → option Thrown;
  readFile : JsValue → option JsValue → option Thrown
}.

Inductive ShareEffect :=
  | Request (name : Callback) (rest : JsValue)
  | Notify (name : Callback) (rest : JsValue)
  | RunTextInTerm (text : JsValue)
  | GetHelpFileForPath (path : JsValue)
  | SessionRequest (data : JsValue)
  | ReadFile (file : JsValue) (encoding : option JsValue)
  | UpdateGuestRequest (file force : JsValue)
  | UpdateGuestWorkspace (hostWorkspace : JsValue)
  | UpdateGuestPlot (file : JsValue)
  | ShowGuestViewer (url : JsValue)
  | DetachGuest
  | ClearGuestAttachRequested
  | ShowErrorMessage (text : JsValue)
  | ShowInformationMessage (text : JsValue)
  | ShowWarningMessage (text : JsValue).

Definition Result : Type := list ShareEffect * option Thrown.
Definition Handler : Type := ShareEnv → JsValue → Result.

(** [{ ...rest }]: the array spread into an object with keys ["0"], ["1"], ... *)
Definition spread (rest : list JsValue) : JsValue :=
  JsObject (imap (λ i x, (pretty i, x)) rest).

Definition liveShareRequest (e : ShareEnv) (name : Callback) (rest : list JsValue)
    : ShareEffect :=
  if isGuest e then Request name (JsArray rest) else Notify name (spread rest).

Definition notifyMessage (e : ShareEnv) (text : string) (t : MessageType) : ShareEffect :=
  liveShareRequest e NotifyMessage [JsString text; JsString (MessageType_value t)].

Definition param (params : list JsValue) (i : nat) : JsValue :=
  default JsUndefined (params !! i).

(** *** Host handlers *)

Definition host_RequestAttachGuest : Handler := λ e _,
  if negb (shareWorkspace e) || negb (rHostService e) then
    ([notifyMessage e "The host has not enabled guest attach." warning], None)
  else if negb (server e) then
    ([notifyMessage e "No active host session to attach." warning], None)
  else ([RunTextInTerm (JsString ".vsc.attach()")], None).

(** [runTextInTerm] receives the template string made from [params[0]];
    making it throws before the call when [params[0]] has no string
    conversion. *)
Definition host_RequestRunTextInTerm : Handler := λ e args,
  if forwardCommands e then
    let params := normalizeRequestArgs args in
    if toStringThrows (param params 0) then ([], Some JsTypeError)
    else ([RunTextInTerm (param params 0)], None)
  else
    ([notifyMessage e "The host has not enabled command forwarding. Command was not sent."
        warning], None).

Definition host_GetHelpFileContent : Handler := λ e args,
  let params := normalizeRequestArgs args in
  if globalRHelp e then
    ([GetHelpFileForPath (param params 0)], getHelpFileForPath e (param params 0))
  else ([], None).

Definition host_RequestDataViewRows : Handler := λ e args,
  let params := normalizeRequestArgs args in
  if negb (server e) then ([], Some (JsErrorMsg "R server not available"))
  else ([SessionRequest (param params 0)], sessionRequest e (param params 0)).

Definition host_GetFileContent : Handler := λ e args,
  let params := normalizeRequestArgs args in
  let file := param params 0 in
  let encoding := param params 1 in
  match encoding with
  | JsUndefined => ([ReadFile file None], readFile e file None)
  | _ => ([ReadFile file (Some encoding)], readFile e file (Some encoding))
  end.

(** *** Guest handlers *)

Definition guest_NotifyRequestUpdate : Handler := λ e args,
  match js_elem args 0, js_elem args 1 with
  | Some a0, Some a1 => ([UpdateGuestRequest a0 a1], None)
  | _, _ => ([], Some JsTypeError)
  end.

Definition guest_NotifyWorkspaceUpdate : Handler := λ e args,
  match js_elem args 0 with
  | Some a0 => ([UpdateGuestWorkspace a0], None)
  | None => ([], Some JsTypeError)
  end.

Definition guest_NotifyPlotUpdate : Handler := λ e args,
  match js_elem args 0 with
  | Some a0 => ([UpdateGuestPlot a0], None)
  | None => ([], Some JsTypeError)
  end.

Definition guest_NotifyGuestPlotManager : Handler := λ e args,
  if negb (isGuestAttached e) then ([], None)
  else if globalHttpgdManager e then
    match js_elem args 0 with
    | Some a0 => ([ShowGuestViewer a0], None)
    | None => ([], Some JsTypeError)
    end
  else ([], None).

Definition guest_OrderDetach : Handler := λ e _, ([DetachGuest], None).

Definition isString (x : JsValue) (s : string) : bool :=
  match x with
  | JsString t => String.eqb t s
  | _ => false
  end.

Definition guest_NotifyMessage : Handler := λ e args,
  match js_elem args 0, js_elem args 1 with
  | Some a0, Some a1 =>
      let es :=
        if isString a0 "No active host session to attach."
           || isString a0 "The host has not enabled guest attach."
        then [ClearGuestAttachRequested] else [] in
      let shown :=
        if isString a1 (MessageType_value error) then [ShowErrorMessage a0]
        else if isString a1 (MessageType_value information) then [ShowInformationMessage a0]
        else if isString a1 (MessageType_value warning) then [ShowWarningMessage a0]
        else match a1 with
             | JsUndefined => [ShowInformationMessage a0]
             | _ => []
             end in
      (es ++ shown, None)
  | _, _ => ([], Some JsTypeError)
  end.

(** The [Commands] table. *)
Definition Commands_host : list (Callback * Handler) :=
  [ (RequestAttachGuest, host_RequestAttachGuest);
    (RequestRunTextInTerm, host_RequestRunTextInTerm);
    (GetHelpFileContent, host_GetHelpFileContent);
    (RequestDataViewRows, host_RequestDataViewRows);
    (GetFileContent, host_GetFileContent) ].

Definition Commands_guest : list (Callback * Handler) :=
  [ (NotifyRequestUpdate, guest_NotifyRequestUpdate);
    (NotifyWorkspaceUpdate, guest_NotifyWorkspaceUpdate);
    (NotifyPlotUpdate, guest_NotifyPlotUpdate);
    (NotifyGuestPlotManager, guest_NotifyGuestPlotManager);
    (OrderDetach, guest_OrderDetach);
    (NotifyMessage, guest_NotifyMessage) ].

#[global] Instance Callback_eq_dec : EqDecision Callback.
Proof. solve_decision. Defined.

(** [Commands.host[name]], [Commands.guest[name]] *)
Definition handlerOf (table : list (Callback * Handler)) (name : Callback)
    : option Handler :=
  (λ r, r.2.2) <$> list_find (λ nh, nh.1 = name) table.

(** A handler strips a transport context: called with a context object in
    front of the real arguments it does what it does on the real arguments
    alone. *)
Definition strips_context (h : Handler) : Prop :=
  ∀ e ctx rest,
    hasContext (Some ctx) = true →
    hasContext (rest !! 0) = false →
    h e (JsArray (ctx :: rest)) = h e (JsArray rest).

End Share.

(** ** Sample sessions

    Concrete surroundings and viewers on which the statements below are
    exercised. *)

Definition sample_renderers : list HttpgdRenderer :=
  [ mkHttpgdRenderer "svg" "SVG" ".svg" "Scalable Vector Graphics";
    mkHttpgdRenderer "png" "PNG" ".png" "Portable Network Graphics" ].

(** A server that answers every request with a text naming the plot and
    the renderer asked for. *)
Definition sample_api (ids : list HttpgdPlotId) : Httpgd :=
  {| getPlots := HttpgdIdResponse.mk <$> ids;
     getPlot := λ req,
       Some (default "newest" (req_id req) +:+ "." +:+ default "svg" (req_renderer req));
     getRenderers := sample_renderers |}.

Definition sample_url : string := "http://127.0.0.1:5900/live?token=abc".

Definition sample_env : Env :=
  {| createWebviewPanel := mkWebviewPanel false;
     showQuickPick := Some "png";
     showSaveDialog := Some "/home/user/plot.png";
     isGuest := false;
     isHost := false;
     autoShareBrowser := false;
     shareServer := true;
     conf_colorTheme := "vscode";
     conf_plotPreviewLayout := multirow;
     conf_refreshInterval := 10;
     conf_resizeInterval := 100;
     conf_fullWindowMode := false;
     URL := λ s, if decide (s = sample_url) then Some ("127.0.0.1:5900", Some "abc") else None;
     newHttpgd := λ _ _, sample_api ["1"; "2"; "3"] |}.

(** A plot as [getPlotContent] returns it for an 800 x 600 view at zoom 1. *)
Definition sample_plot (id : HttpgdPlotId) : HttpgdPlot.t :=
  HttpgdPlot.mk id (id +:+ ".svgp") 600 800 1.

(** A viewer as the constructor leaves it, without display surface. *)
Definition fresh_viewer : HttpgdViewer :=
  (new_HttpgdViewer sample_env "127.0.0.1:5900"
     (mkHttpgdViewerOptions (Some "abc") (Some true) None None None None None) (Some "4711")).1.

(** A viewer showing the plots [ids], the plot [act] being active. *)
Definition sample_viewer (panel : option WebviewPanel) (ids : list HttpgdPlotId)
    (act : option HttpgdPlotId) : HttpgdViewer :=
  set_webviewPanel panel (set_activePlot act (set_plots (sample_plot <$> ids) fresh_viewer)).

Definition sample_context : Share.JsValue :=
  Share.JsObject [("connection", Share.JsObject []); ("session", Share.JsObject [])].

(** A host with everything switched on, whose file system refuses a
    path that is not a string and reads every other file. *)
Definition sample_readFile (file : Share.JsValue) (encoding : option Share.JsValue)
    : option Share.Thrown :=
  match file with
  | Share.JsString _ => None
  | _ => Some Share.JsTypeError
  end.

Definition sample_shareEnv : Share.ShareEnv :=
  Share.mkShareEnv false true true true true true true true
    (λ _, None) (λ _, None) sample_readFile.

(** ** Notions used in the statements *)

(** [zoomOut] called [n] times in a row (the pending re-renders dropped). *)
Fixpoint zoomOuts (n : nat) (v : HttpgdViewer) : HttpgdViewer :=
  match n with
  | O => v
  | S n => (zoomOut (zoomOuts n v)).1
  end.

(** The zoom after one [zoomOut], as a function of the zoom before. *)
Definition zoomOut_step (z : float) : float :=
  if PrimFloat.ltb 0 z then (z - 0.1)%float else z.

(** The refresh protocol in the words of the specification: the target ids
    are the incoming ids minus the hidden ones; a target id keeps its local
    plot when there is one, it is not the active plot and [force] is off, and
    is rendered afresh for the current view otherwise. *)
Definition targetIds (v : HttpgdViewer) (plotsIdResponse : list HttpgdIdResponse.t)
    : list HttpgdPlotId :=
  filter (λ id, id ∉ hiddenPlots v) (HttpgdIdResponse.id <$> plotsIdResponse).

Definition fresh (v : HttpgdViewer) (id : HttpgdPlotId) : HttpgdPlot.t :=
  {| HttpgdPlot.id := id;
     HttpgdPlot.data :=
       default "" (getPlot (api v) (svgpRequest id (viewWidth v) (viewHeight v) (zoom v)));
     HttpgdPlot.height := viewHeight v;
     HttpgdPlot.width := viewWidth v;
     HttpgdPlot.zoom := zoom v |}.

Definition spec_refreshed (v : HttpgdViewer) (force : bool) (id : HttpgdPlotId)
    : HttpgdPlot.t :=
  match js_find (λ plt, HttpgdPlot.id plt = id) (plots v) with
  | Some plot =>
      if negb force && bool_decide (activePlot v ≠ Some id) then plot else fresh v id
  | None => fresh v id
  end.

(** The plots of [ps] that the incremental display path appends and
    focuses: their id was not shown before, and is not the empty string. *)
Definition newlyAdded (oldPlotIds : list HttpgdPlotId) (ps : list HttpgdPlot.t)
    : list HttpgdPlot.t :=
  filter (λ p, (HttpgdPlot.id p ∉ oldPlotIds) ∧ (HttpgdPlot.id p ≠ "")) ps.

(** The active index is where the specification wants it: [-1] exactly when
    there is no plot, and a position of [plots] otherwise. *)
Definition activeIndex_ok (v : HttpgdViewer) : Prop :=
  (plots v = [] ↔ activeIndex v = (-1)%Z)
  ∧ (plots v ≠ [] → (0 ≤ activeIndex v ≤ Z.of_nat (length (plots v)) - 1)%Z).

(** One turn of the loop of the incremental branch, seen from the active
    plot: a plot that was shown before leaves it alone, an appended plot is
    focused. *)
Definition patch_active (oldPlotIds : list HttpgdPlotId) (a : option HttpgdPlotId)
    (plt : HttpgdPlot.t) : option HttpgdPlotId :=
  if decide (HttpgdPlot.id plt ∈ oldPlotIds) then a else js_or (Some (HttpgdPlot.id plt)) a.

(** ** Further members of the viewer and of the manager *)

(** The handler [makeNewWebview] registers with [webviewPanel.onDidDispose]:
    the heartbeat timer is cleared and the panel forgotten. *)
Definition onDidDispose (v : HttpgdViewer) : HttpgdViewer :=
  set_webviewPanel None (set_guestConnectionTimer false v).

Definition setLastPlot (m : HttpgdManager) (urlString pid : string) : HttpgdManager :=
  mkHttpgdManager (viewers m) (viewerOptions m) (recentlyActiveViewers m) (sharedServers m)
    (Some urlString) (Some pid) (heap m).

Definition getLastPlotUrl (m : HttpgdManager) : option string := lastPlotUrl m.

Definition clearLastPlot (m : HttpgdManager) : HttpgdManager :=
  mkHttpgdManager (viewers m) (viewerOptions m) (recentlyActiveViewers m) (sharedServers m)
    None None (heap m).

(** [!!viewers && viewers.some(v => v.webviewPanel)] *)
Definition hasViewer (m : HttpgdManager) (pid : string) : bool :=
  match recentlyActiveViewers m !! pid with
  | Some bucket => bool_decide (Exists (λ r, is_Some (heap m !! r ≫= webviewPanel)) bucket)
  | None => false
  end.

(** [v.webviewPanel?.dispose()]: disposing the panel runs the handler the
    viewer registered for it. *)
Definition disposePanel (h : list HttpgdViewer) (r : ViewerRef) : list HttpgdViewer :=
  match h !! r with
  | Some v =>
      match webviewPanel v with
      | Some _ => <[r := onDidDispose v]> h
      | None => h
      end
  | None => h
  end.

Definition dropPid (m : HttpgdManager) (pid : string) : HttpgdManager :=
  match recentlyActiveViewers m !! pid with
  | None => m
  | Some bucket =>
      mkHttpgdManager (viewers m) (viewerOptions m) (delete pid (recentlyActiveViewers m))
        (sharedServers m) (lastPlotUrl m) (lastPlotPid m) (foldl disposePanel (heap m) bucket)
  end.

Definition closeGuestViewers (m : HttpgdManager) : HttpgdManager :=
  let m := dropPid m GUEST_PID in
  if decide (lastPlotPid m = Some GUEST_PID) then clearLastPlot m else m.

(** ** Notions used in the further statements *)

(** [x] clamped into the positions of a list of length [n]. *)
Definition clamp (n : nat) (x : Z) : Z := Z.min (Z.max x 0) (Z.of_nat n - 1).

(** A target id for which [refreshPlots] keeps the local plot. *)
Definition keepsCached (v : HttpgdViewer) (force : bool) (id : HttpgdPlotId) : bool :=
  negb force
  && bool_decide (is_Some (js_find (λ plt, HttpgdPlot.id plt = id) (plots v)))
  && bool_decide (activePlot v ≠ Some id).

(** Effects that fetch a render or touch a file. *)
Definition isTransfer (e : Effect) : bool :=
  match e with
  | ApiGetPlot _ | CreateWriteStream _ | PipeToFile _ _ => true
  | _ => false
  end.

Definition isCreateWebviewPanel (e : Effect) : bool :=
  match e with
  | CreateWebviewPanel _ _ => true
  | _ => false
  end.

(** The notification a guest shows for a severity tag. *)
Definition shownAs (t : Share.MessageType) (text : Share.JsValue) : Share.ShareEffect :=
  match t with
  | Share.information => Share.ShowInformationMessage text
  | Share.error => Share.ShowErrorMessage text
  | Share.warning => Share.ShowWarningMessage text
  end.

(** The ids whose removal the effects ask of the server. *)
Definition removals (es : list Effect) : list HttpgdPlotId :=
  omap (λ e, match e with ApiRemovePlot x => Some x | _ => None end) es.

(** * Properties *)

(** ** Display toggles *)

(** C10. [toggleStyle(b)] sets [stripStyles] to exactly [b] and
    [toggleFullWindow(b)] sets [fullWindow] to exactly [b], whatever the
    flag was; without argument each call negates its flag, so that two
    calls in a row give the flag its original value back. *)
Theorem toggle_force_and_involution :
  ∀ (v : HttpgdViewer) (b : bool),
    stripStyles (toggleStyle v (Some b)).1 = b
    ∧ fullWindow (toggleFullWindow v (Some b)).1 = b
    ∧ stripStyles (toggleStyle v None).1 = negb (stripStyles v)
    ∧ fullWindow (toggleFullWindow v None).1 = negb (fullWindow v)
    ∧ stripStyles (toggleStyle (toggleStyle v None).1 None).1 = stripStyles v
    ∧ fullWindow (toggleFullWindow (toggleFullWindow v None).1 None).1 = fullWindow v.
Proof.
  intros v b. repeat split; cbn; try reflexivity; apply negb_involutive.
Qed.

(** The toggles touch nothing but their own flag. *)
Lemma toggleStyle_frame (v : HttpgdViewer) (force : option bool) :
  let v' := (toggleStyle v force).1 in
  plots v' = plots v ∧ activePlot v' = activePlot v ∧ fullWindow v' = fullWindow v
  ∧ zoom v' = zoom v.
Proof. by cbn. Qed.

(** ** Zoom *)

Lemma zoom_zoomOut (v : HttpgdViewer) : zoom (zoomOut v).1 = zoomOut_step (zoom v).
Proof. unfold zoomOut, zoomOut_step. by destruct (PrimFloat.ltb 0 (zoom v)). Qed.

Lemma zoom_zoomOuts (n : nat) (v : HttpgdViewer) :
  zoom (zoomOuts n v) = Nat.iter n zoomOut_step (zoom v).
Proof.
  induction n as [|n IH]; [done|].
  cbn [zoomOuts Nat.iter]. by rewrite zoom_zoomOut, IH.
Qed.

(** At zoom 0 (or below) [zoomOut] does nothing at all. *)
Lemma zoomOut_at_floor (v : HttpgdViewer) :
  PrimFloat.ltb 0 (zoom v) = false → zoomOut v = (v, []).
Proof. intros H. unfold zoomOut. by rewrite H. Qed.

Lemma zoom_zoomIn (v : HttpgdViewer) : zoom (zoomIn v).1 = (zoom v + 0.1)%float.
Proof. done. Qed.

(** C6, on the code. From the initial zoom 1, ten calls of [zoomOut] end at
    a zoom that is above 0 and not 0 (binary64 subtraction of 0.1 is not
    exact), so the guard [zoom > 0] lets the eleventh call through and the
    zoom becomes negative. *)
Theorem zoomOut_eleven_times_negative :
  ∀ v : HttpgdViewer,
    zoom v = zoom0 →
    PrimFloat.ltb 0 (zoom (zoomOuts 10 v)) = true
    ∧ PrimFloat.eqb (zoom (zoomOuts 10 v)) 0 = false
    ∧ PrimFloat.ltb (zoom (zoomOuts 11 v)) 0 = true.
Proof.
  intros v Hz. rewrite !zoom_zoomOuts, Hz. by vm_compute.
Qed.

Lemma zoomOut_eleven_times_negative_witness :
  PrimFloat.ltb (zoom (zoomOuts 11 fresh_viewer)) 0 = true.
Proof.
  apply (zoomOut_eleven_times_negative fresh_viewer). reflexivity.
Defined.

(** ** Navigation *)

Lemma plots_set_activeIndex (ind : Z) (v : HttpgdViewer) :
  plots (set_activeIndex ind v) = plots v.
Proof. unfold set_activeIndex. by destruct (decide _). Qed.

Lemma js_index_nil {A} (i : Z) : js_index (@nil A) i = None.
Proof. unfold js_index. by destruct (decide _). Qed.

Lemma focusPlot_no_plots (v : HttpgdViewer) (id : option HttpgdPlotId) :
  plots v = [] → thrown (focusPlot v id) = Some TypeError.
Proof.
  intros Hp. unfold focusPlot. cbn. by rewrite Hp, js_index_nil.
Qed.

(** C3, on the code. With no plots in the session [focusPlot], [nextPlot]
    and [prevPlot] read [plt.height] of [this.plots[-1]], which is
    [undefined]: the call throws a [TypeError] (the promise is rejected)
    instead of doing nothing. *)
Theorem navigation_without_plots_throws :
  ∀ (v : HttpgdViewer) (id : option HttpgdPlotId) (b : option bool),
    plots v = [] →
    thrown (focusPlot v id) = Some TypeError
    ∧ thrown (nextPlot v b) = Some TypeError
    ∧ thrown (prevPlot v b) = Some TypeError.
Proof.
  intros v id b Hp. split; [by apply focusPlot_no_plots|].
  split; apply focusPlot_no_plots; by rewrite plots_set_activeIndex.
Qed.

Lemma navigation_without_plots_throws_witness :
  thrown (nextPlot fresh_viewer None) = Some TypeError.
Proof.
  apply (navigation_without_plots_throws fresh_viewer None None). reflexivity.
Defined.

(** The same happens with plots in the session when the id to focus is
    not among them, and the stale id stays behind as active plot. *)
Lemma focusPlot_stale_id_throws :
  let r := focusPlot (sample_viewer None ["1"; "2"] (Some "2")) (Some "7") in
  thrown r = Some TypeError ∧ activePlot (state r) = Some "7".
Proof. by vm_compute. Qed.

(** C7, on the code. The active plot was rendered for exactly the current
    view (same width, height and zoom), the view is not square: the
    comparison of [plt.width] with [this.viewHeight] still finds a
    difference, and [focusPlot] starts a full refresh instead of posting the
    focus message. *)
Theorem focusPlot_up_to_date_plot_refreshes :
  ∀ (v : HttpgdViewer) (plt : HttpgdPlot.t),
    js_index (plots v) (activeIndex v) = Some plt →
    HttpgdPlot.height plt = viewHeight v →
    HttpgdPlot.width plt = viewWidth v →
    HttpgdPlot.zoom plt = zoom v →
    viewWidth v ≠ viewHeight v →
    effects (focusPlot v None) = spawnRefresh v (getPlots (api v)) false false
    ∧ effects (focusPlot v None) ≠ _focusPlot v None.
Proof.
  intros v plt Hplt Hh Hw Hz Hne.
  assert (effects (focusPlot v None) = spawnRefresh v (getPlots (api v)) false false) as E.
  { unfold focusPlot. cbn.
    change (activeIndex (set_activePlot (activePlot v) v)) with (activeIndex v).
    rewrite Hplt, Hh, Hw.
    rewrite bool_decide_eq_false_2 by congruence.
    rewrite (bool_decide_eq_true_2 (viewWidth v ≠ viewHeight v)) by done.
    reflexivity. }
  split; [done|]. rewrite E. unfold spawnRefresh, _focusPlot, setContextValues, postWebviewMessage.
  intros Heq.
  apply (f_equal (λ l, last l)) in Heq. rewrite last_snoc in Heq.
  destruct (nullish None (activePlot v)) as [i|]; [|done].
  destruct (truthy (Some i)); [|done].
  destruct (webviewPanel v) as [[[]]|]; cbn in Heq; discriminate.
Qed.

Lemma focusPlot_up_to_date_plot_refreshes_witness :
  effects (focusPlot (sample_viewer (Some (mkWebviewPanel true)) ["1"; "2"] (Some "2")) None)
  = spawnRefresh (sample_viewer (Some (mkWebviewPanel true)) ["1"; "2"] (Some "2"))
      (HttpgdIdResponse.mk <$> ["1"; "2"; "3"]) false false.
Proof.
  apply (focusPlot_up_to_date_plot_refreshes
           (sample_viewer (Some (mkWebviewPanel true)) ["1"; "2"] (Some "2")) (sample_plot "2"));
    [reflexivity | reflexivity | reflexivity | reflexivity | vm_compute; discriminate].
Defined.

(** Conversely a plot whose width differs from the view width is taken for
    up to date as soon as its width equals the view height. *)
Lemma focusPlot_stale_width_not_refreshed :
  let v := set_viewHeight 800 (set_plots [HttpgdPlot.mk "1" "" 800 800 1]
             (sample_viewer (Some (mkWebviewPanel false)) [] (Some "1"))) in
  viewWidth v = 800%Z ∧ viewHeight v = 800%Z
  ∧ effects (focusPlot (set_viewWidth 1000 v) None) = _focusPlot (set_viewWidth 1000 v) None.
Proof. by vm_compute. Qed.

(** ** Resize *)

Lemma resizeTimeoutLength_new (env : Env) (host : string) (o : HttpgdViewerOptions)
    (pid : option string) :
  resizeTimeoutLength (new_HttpgdViewer env host o pid).1
  = default 1300%Z (opt_refreshTimeoutLength o).
Proof.
  unfold new_HttpgdViewer, startGuestHeartbeat. cbn.
  by destruct (negb (isGuest env) || false).
Qed.

(** A resize the user triggered, or any resize when the window is 0, drops
    the pending timer and starts the re-render of the active plot at once. *)
Lemma handleResize_immediate (v : HttpgdViewer) (height width : Z) (userTriggered : bool) :
  userTriggered = true ∨ resizeTimeoutLength v = 0%Z →
  let r := handleResize v height width userTriggered in
  resizeTimeout r.1 = None
  ∧ viewHeight r.1 = height ∧ viewWidth r.1 = width
  ∧ ∃ cleared, r.2 = cleared ++ resizePlot_begin r.1 None
      ∧ cleared = match resizeTimeout v with Some t => [ClearTimeout (Some t)] | None => [] end.
Proof.
  intros H. unfold handleResize. cbn.
  assert (userTriggered || bool_decide (resizeTimeoutLength v = 0%Z) = true) as ->.
  { destruct H as [->| ->]; [done|]. by rewrite orb_true_r. }
  cbn. repeat split. eexists. split; reflexivity.
Qed.

(** Any other resize only records the size: it arms the timer when none is
    pending and is otherwise absorbed by the pending one. *)
Lemma handleResize_throttled (v : HttpgdViewer) (height width : Z) :
  resizeTimeoutLength v ≠ 0%Z →
  let r := handleResize v height width false in
  viewHeight r.1 = height ∧ viewWidth r.1 = width
  ∧ match resizeTimeout v with
    | None =>
        resizeTimeout r.1 = Some (mkTimer (resizeTimeoutLength v) ResizeCallback)
        ∧ r.2 = [SetTimeout (mkTimer (resizeTimeoutLength v) ResizeCallback)]
    | Some t => resizeTimeout r.1 = Some t ∧ r.2 = []
    end.
Proof.
  intros H. unfold handleResize. cbn.
  rewrite bool_decide_eq_false_2 by done. cbn.
  by destruct (resizeTimeout v) eqn:E.
Qed.

(** C8, on the code. The constructor takes the resize window from
    [options.refreshTimeoutLength]: a viewer made with a refresh interval
    and no resize interval does not get the 1300 ms default, and a resize
    interval that is given is ignored. A passive resize is then throttled
    for the refresh interval. *)
Theorem resize_window_is_refresh_interval :
  ∀ (env : Env) (host : string) (o : HttpgdViewerOptions) (pid : option string) (ms : Z),
    opt_refreshTimeoutLength o = Some ms →
    ms ≠ 0%Z →
    let v := (new_HttpgdViewer env host o pid).1 in
    resizeTimeoutLength v = ms
    ∧ (handleResize v 480 640 false).2 = [SetTimeout (mkTimer ms ResizeCallback)].
Proof.
  intros env host o pid ms Ho Hms v.
  assert (resizeTimeoutLength v = ms) as E.
  { unfold v. by rewrite resizeTimeoutLength_new, Ho. }
  split; [done|].
  pose proof (handleResize_throttled v 480 640) as H. cbn zeta in H.
  rewrite E in H. specialize (H Hms).
  assert (resizeTimeout v = None) as Hn.
  { unfold v, new_HttpgdViewer, startGuestHeartbeat. cbn.
    by destruct (negb (isGuest env) || false). }
  rewrite Hn in H. by destruct H as (_ & _ & _ & ->).
Qed.

Lemma resize_window_is_refresh_interval_witness :
  resizeTimeoutLength
    (new_HttpgdViewer sample_env "127.0.0.1:5900"
       (mkHttpgdViewerOptions None (Some true) None None (Some 10%Z) None None) None).1
  = 10%Z.
Proof.
  apply (resize_window_is_refresh_interval sample_env "127.0.0.1:5900"
           (mkHttpgdViewerOptions None (Some true) None None (Some 10%Z) None None) None 10);
    [reflexivity | lia].
Defined.

(** The viewer [showViewer] makes with the default settings (refresh
    interval 10, resize interval 100) throttles resizes for 10 ms. *)
Lemma showViewer_resize_window :
  resizeTimeoutLength
    <$> heap (showViewer sample_env new_HttpgdManager sample_url "4711").1.1 !! 0%nat
  = Some 10%Z.
Proof. by vm_compute. Qed.

(** ** Export *)

Lemma js_or_truthy (a b : option string) : truthy a = true → js_or a b = a.
Proof. intros H. unfold js_or. by rewrite H. Qed.

Lemma js_or_falsy (a b : option string) : truthy a = false → js_or a b = b.
Proof. intros H. unfold js_or. by rewrite H. Qed.

(** C5, on the code. With an explicit plot id, a format and a file, the
    render request of [exportPlot] names [this.activePlot], not the plot the
    export was resolved to; the session state is as before. *)
Theorem exportPlot_fetches_active_plot :
  ∀ (env : Env) (v : HttpgdViewer) (id : HttpgdPlotId) (rendererId : HttpgdRendererId)
    (outFile : string) (plot : HttpgdPlot.t),
    truthy (Some id) = true →
    truthy (Some rendererId) = true →
    truthy (Some outFile) = true →
    js_find (λ plt, Some (HttpgdPlot.id plt) = Some id) (plots v) = Some plot →
    let r := exportPlot env v (Some id) (Some rendererId) (Some outFile) in
    let req := mkPlotRequest (activePlot v) None None None (Some rendererId) in
    state r = v
    ∧ effects r
      = [ApiGetPlot req; CreateWriteStream outFile]
        ++ match getPlot (api v) req with
           | Some body => [PipeToFile body outFile]
           | None => []
           end.
Proof.
  intros env v id rid out plot Hid Hrid Hout Hfind. cbn zeta.
  unfold exportPlot. rewrite (js_or_truthy (Some id)) by done.
  rewrite Hfind, Hrid. cbn -[truthy]. rewrite Hrid, Hout. cbn.
  by destruct (getPlot (api v) _).
Qed.

Lemma exportPlot_fetches_active_plot_witness :
  effects (exportPlot sample_env (sample_viewer None ["1"; "2"] (Some "2"))
             (Some "1") (Some "png") (Some "/tmp/first.png"))
  = [ApiGetPlot (mkPlotRequest (Some "2") None None None (Some "png"));
     CreateWriteStream "/tmp/first.png";
     PipeToFile "2.png" "/tmp/first.png"].
Proof.
  apply (exportPlot_fetches_active_plot sample_env (sample_viewer None ["1"; "2"] (Some "2"))
           "1" "png" "/tmp/first.png" (sample_plot "1")); reflexivity.
Defined.

(** The target of an export: the id passed, else the active plot, else the
    most recent plot; without any of them the user is warned and nothing
    is fetched. *)
Lemma exportPlot_no_target (env : Env) (v : HttpgdViewer)
    (rendererId : option HttpgdRendererId) (outFile : option string) :
  plots v = [] →
  exportPlot env v None rendererId outFile
  = ok v [ShowWarningMessage "No plot available for export."].
Proof. intros Hp. unfold exportPlot. by rewrite Hp. Qed.

(** What the write stream reports leaves the session as it is. *)
Lemma export_stream_events_keep_state (v : HttpgdViewer) (s : string) :
  (dest_onError v s).1 = v ∧ (dest_onClose v s).1 = v.
Proof. done. Qed.

(** ** The registry *)

(** C4, on the code. The first [showViewer] for an address builds the
    viewer and puts it into the owner's bucket only: [this.viewers], the
    most-recently-used list, is left as it was, so the new session is not at
    its front (it is not in it). *)
Theorem showViewer_first_call_skips_viewers :
  ∀ (env : Env) (urlString pid host : string) (token : option string),
    URL env urlString = Some (host, token) →
    let m := (showViewer env new_HttpgdManager urlString pid).1.1 in
    viewers m = []
    ∧ getNewestViewer m = None
    ∧ recentlyActiveViewers m !! pid = Some [0%nat]
    ∧ hostOf m 0%nat = Some host.
Proof.
  intros env urlString pid host token Hurl. cbn zeta.
  unfold showViewer. cbn. rewrite Hurl. cbn. rewrite lookup_empty. cbn.
  rewrite js_index_nil.
  unfold new_HttpgdViewer, startGuestHeartbeat. cbn.
  destruct (negb (isGuest env) || false); cbn -[insert];
    destruct (isHost env && autoShareBrowser env); cbn -[insert];
    try destruct (shareServer env); cbn -[insert];
    by rewrite lookup_insert_eq.
Qed.

Lemma showViewer_first_call_skips_viewers_witness :
  viewers (showViewer sample_env new_HttpgdManager sample_url "4711").1.1 = [].
Proof.
  apply (showViewer_first_call_skips_viewers sample_env sample_url "4711"
           "127.0.0.1:5900" (Some "abc")).
  reflexivity.
Defined.

(** The second call for the same address and owner finds the session in the
    bucket and moves it to the front of [this.viewers]. *)
Lemma showViewer_second_call :
  let m1 := (showViewer sample_env new_HttpgdManager sample_url "4711").1.1 in
  let m2 := (showViewer sample_env m1 sample_url "4711").1.1 in
  viewers m2 = [0%nat] ∧ recentlyActiveViewers m2 !! "4711" = Some [0%nat].
Proof. by vm_compute. Qed.

(** A second owner asking for the same address before the session has been
    shown gets a session of its own; once both are shown the address is
    twice in [this.viewers], and showing it twice more under one owner does
    not change that. *)
Lemma showViewer_two_owners_duplicate_host :
  let show m pid := (showViewer sample_env m sample_url pid).1.1 in
  let m := show (show (show (show new_HttpgdManager "4711") "4712") "4711") "4712" in
  let m' := show (show m "4712") "4712" in
  viewers m' = [1%nat; 0%nat]
  ∧ hostOf m' 0%nat = Some "127.0.0.1:5900"
  ∧ hostOf m' 1%nat = Some "127.0.0.1:5900".
Proof. by vm_compute. Qed.

(** ** Argument normalization on the bridge *)

Module ShareFacts.
Import Share.

Lemma normalizeRequestArgs_strips (ctx : JsValue) (rest : list JsValue) :
  hasContext (Some ctx) = true → normalizeRequestArgs (JsArray (ctx :: rest)) = rest.
Proof. intros H. unfold normalizeRequestArgs. cbn [lookup list_lookup]. by rewrite H. Qed.

Lemma normalizeRequestArgs_keeps (items : list JsValue) :
  hasContext (items !! 0%nat) = false → normalizeRequestArgs (JsArray items) = items.
Proof. intros H. unfold normalizeRequestArgs. by rewrite H. Qed.

(** The duck typing: a context is an object with both properties. *)
Lemma hasContext_true (first : JsValue) :
  hasContext (Some first) = true
  ↔ ∃ props, first = JsObject props
      ∧ is_Some (getProp "connection" props) ∧ is_Some (getProp "session" props).
Proof.
  unfold hasContext, js_in. split.
  - destruct first; cbn; try done; try (by rewrite ?andb_false_r).
    intros [H1 H2]%andb_prop. exists props.
    apply bool_decide_eq_true in H1, H2. done.
  - intros (props & -> & H1 & H2). cbn.
    by rewrite !bool_decide_eq_true_2.
Qed.

(** A value that is not an array is wrapped into a one-element list first. *)
Lemma normalizeRequestArgs_wraps (x : JsValue) :
  (∀ items, x ≠ JsArray items) →
  normalizeRequestArgs x = if hasContext (Some x) then [] else [x].
Proof. intros H. destruct x; try done. by destruct (H items). Qed.

Lemma normalized_args_decide (h : Handler) :
  (∀ e a b, normalizeRequestArgs a = normalizeRequestArgs b → h e a = h e b) →
  strips_context h.
Proof.
  intros Hh e ctx rest Hc Hr. apply Hh.
  by rewrite normalizeRequestArgs_strips, normalizeRequestArgs_keeps.
Qed.

(** C9, as the code has it. Every host handler of the [Commands] table
    works on the normalized list: a leading object with the properties
    [connection] and [session] is dropped before the arguments are read,
    any other list is read as it is. The guest handlers do not normalize:
    each reads [args[0]] and [args[1]] where they stand in what it
    receives, so that a context object in front is its first argument. *)
Theorem handlers_normalize_on_host_only :
  (∀ (name : Callback) (h : Handler) (e : ShareEnv) (ctx : JsValue) (rest : list JsValue),
     handlerOf Commands_host name = Some h →
     hasContext (Some ctx) = true →
     hasContext (rest !! 0%nat) = false →
     normalizeRequestArgs (JsArray (ctx :: rest)) = rest
     ∧ normalizeRequestArgs (JsArray rest) = rest
     ∧ h e (JsArray (ctx :: rest)) = h e (JsArray rest))
  ∧ (∀ (name : Callback) (h : Handler) (e : ShareEnv) (args a0 a1 : JsValue),
       handlerOf Commands_guest name = Some h →
       js_elem args 0 = Some a0 →
       js_elem args 1 = Some a1 →
       h e args
       = match name with
         | NotifyRequestUpdate => ([UpdateGuestRequest a0 a1], None)
         | NotifyWorkspaceUpdate => ([UpdateGuestWorkspace a0], None)
         | NotifyPlotUpdate => ([UpdateGuestPlot a0], None)
         | NotifyGuestPlotManager =>
             (if isGuestAttached e && globalHttpgdManager e
              then [ShowGuestViewer a0] else [],
              None)
         | OrderDetach => ([DetachGuest], None)
         | _ =>
             ((if isString a0 "No active host session to attach."
                  || isString a0 "The host has not enabled guest attach."
               then [ClearGuestAttachRequested] else [])
              ++ (if isString a1 "error" then [ShowErrorMessage a0]
                  else if isString a1 "information" then [ShowInformationMessage a0]
                  else if isString a1 "warning" then [ShowWarningMessage a0]
                  else match a1 with
                       | JsUndefined => [ShowInformationMessage a0]
                       | _ => []
                       end),
              None)
         end).
Proof.
  split.
  - intros name h e ctx rest Hh Hc Hr.
    split; [by apply normalizeRequestArgs_strips|].
    split; [by apply normalizeRequestArgs_keeps|].
    revert e ctx rest Hc Hr. change (strips_context h).
    destruct name; cbn in Hh; try discriminate Hh;
      injection Hh as <-; try (by intros ? ? ? ? ?);
      apply normalized_args_decide; intros e a b Hab.
    + unfold host_RequestRunTextInTerm. by rewrite Hab.
    + unfold host_RequestDataViewRows. by rewrite Hab.
    + unfold host_GetFileContent. by rewrite Hab.
    + unfold host_GetHelpFileContent. by rewrite Hab.
  - intros name h e args a0 a1 Hh H0 H1.
    destruct name; cbn in Hh; try discriminate Hh; injection Hh as <-.
    + unfold guest_NotifyWorkspaceUpdate. by rewrite H0.
    + unfold guest_NotifyPlotUpdate. by rewrite H0.
    + unfold guest_NotifyRequestUpdate. by rewrite H0, H1.
    + unfold guest_NotifyMessage. by rewrite H0, H1.
    + done.
    + unfold guest_NotifyGuestPlotManager. rewrite H0.
      by destruct (isGuestAttached e), (globalHttpgdManager e).
Qed.

Lemma handlers_normalize_on_host_only_witness :
  host_GetFileContent sample_shareEnv
    (JsArray [sample_context; JsString "demo.R"; JsString "utf8"])
  = ([ReadFile (JsString "demo.R") (Some (JsString "utf8"))], None)
  ∧ guest_NotifyWorkspaceUpdate sample_shareEnv
      (JsArray [sample_context; JsString "workspace"])
    = ([UpdateGuestWorkspace sample_context], None).
Proof.
  destruct handlers_normalize_on_host_only as (Hhost & Hguest). split.
  - transitivity
      (host_GetFileContent sample_shareEnv (JsArray [JsString "demo.R"; JsString "utf8"]));
      [|reflexivity].
    apply (Hhost GetFileContent host_GetFileContent sample_shareEnv
             sample_context [JsString "demo.R"; JsString "utf8"]); reflexivity.
  - apply (Hguest NotifyWorkspaceUpdate guest_NotifyWorkspaceUpdate sample_shareEnv
             (JsArray [sample_context; JsString "workspace"])
             sample_context (JsString "workspace")); reflexivity.
Defined.

(** C9 as stated fails: the guest handlers read [args[0]] from the list as
    it arrives, so a context object in front is taken for the first
    argument. *)
Lemma guest_handlers_do_not_strip_context :
  ¬ ∀ (name : Callback) (h : Handler),
      handlerOf (Commands_host ++ Commands_guest) name = Some h → strips_context h.
Proof.
  intros H.
  specialize (H NotifyPlotUpdate guest_NotifyPlotUpdate eq_refl sample_shareEnv
                sample_context [JsString "plot.png"] eq_refl eq_refl).
  discriminate H.
Qed.

End ShareFacts.

(** ** Refresh *)

Lemma state_focusPlot (v : HttpgdViewer) (id : option HttpgdPlotId) :
  state (focusPlot v id) = set_activePlot (js_or id (activePlot v)) v.
Proof.
  unfold focusPlot. destruct (js_index _ _); [|done]. by destruct (_ || _).
Qed.

Lemma state_addPlot (v : HttpgdViewer) (plt : HttpgdPlot.t) :
  (addPlot v plt).1 = set_activePlot (js_or (Some (HttpgdPlot.id plt)) (activePlot v)) v.
Proof. unfold addPlot. cbn. apply state_focusPlot. Qed.

Lemma set_activePlot_same (v : HttpgdViewer) : set_activePlot (activePlot v) v = v.
Proof. by destruct v. Qed.

(** The incremental branch changes the active plot and nothing else. *)
Lemma state_patchPlots (oldPlotIds : list HttpgdPlotId) (ps : list HttpgdPlot.t)
    (v : HttpgdViewer) :
  (patchPlots oldPlotIds v ps).1
  = set_activePlot (foldl (patch_active oldPlotIds) (activePlot v) ps) v.
Proof.
  unfold patchPlots. generalize (@nil Effect) as es. revert v.
  induction ps as [|plt ps IH]; intros v es; cbn [foldl].
  - cbn. by rewrite set_activePlot_same.
  - cbn [fst snd]. unfold patch_active at 2.
    destruct (decide (HttpgdPlot.id plt ∈ oldPlotIds)); [apply IH|].
    destruct (addPlot v plt) as [v' es'] eqn:E.
    rewrite IH. pose proof (state_addPlot v plt) as Hs. rewrite E in Hs. cbn in Hs.
    by subst v'.
Qed.

Lemma truthy_Some (s : string) : truthy (Some s) = true ↔ s ≠ "".
Proof.
  cbn. rewrite negb_true_iff. split.
  - intros H ->. by rewrite String.eqb_refl in H.
  - intros H. by apply String.eqb_neq.
Qed.

Lemma foldl_patch_active (oldPlotIds : list HttpgdPlotId) (ps : list HttpgdPlot.t)
    (a : option HttpgdPlotId) :
  foldl (patch_active oldPlotIds) a ps
  = match last (newlyAdded oldPlotIds ps) with
    | Some p => Some (HttpgdPlot.id p)
    | None => a
    end.
Proof.
  revert a. induction ps as [|plt ps IH]; intros a; [done|].
  cbn [foldl]. rewrite IH. unfold newlyAdded. rewrite filter_cons.
  unfold patch_active.
  destruct (decide (HttpgdPlot.id plt ∈ oldPlotIds)) as [Hin|Hnin].
  - rewrite decide_False by tauto. done.
  - destruct (truthy (Some (HttpgdPlot.id plt))) eqn:Ht.
    + rewrite decide_True by (split; [done|by apply truthy_Some]).
      rewrite js_or_truthy by done. rewrite last_cons. by destruct (last _).
    + rewrite decide_False.
      * by rewrite js_or_falsy.
      * intros [_ Hne]. apply (proj2 (truthy_Some _)) in Hne.
        exact (eq_true_false_abs _ Hne Ht).
Qed.

Lemma refreshHtml_keeps (env : Env) (v : HttpgdViewer) :
  let v' := (refreshHtml env v).1 in
  plots v' = plots v ∧ activePlot v' = activePlot v ∧ hiddenPlots v' = hiddenPlots v.
Proof. unfold refreshHtml. by destruct (webviewPanel v). Qed.

Lemma resolve_promise (v : HttpgdViewer) (plotsIdResponse : list HttpgdIdResponse.t)
    (redraw force : bool) :
  resolve v <$> newPlotPromises (refreshPlots_begin v plotsIdResponse redraw force)
  = spec_refreshed v force <$> targetIds v plotsIdResponse.
Proof.
  unfold refreshPlots_begin, targetIds. cbn [newPlotPromises].
  rewrite <- list_fmap_compose. apply list_fmap_ext. intros _ id _. cbn.
  unfold spec_refreshed.
  destruct (js_find _ _) as [plot|]; [|done].
  destruct force; cbn; [done|].
  destruct (decide (Some id = activePlot v)) as [E|E].
  - rewrite bool_decide_eq_true_2, bool_decide_eq_false_2 by (done || congruence). done.
  - rewrite bool_decide_eq_false_2, bool_decide_eq_true_2 by (done || congruence). done.
Qed.

Lemma id_spec_refreshed (v : HttpgdViewer) (force : bool) (id : HttpgdPlotId) :
  HttpgdPlot.id (spec_refreshed v force id) = id.
Proof.
  unfold spec_refreshed, js_find.
  destruct (list_find _ _) as [[i plot]|] eqn:E; cbn; [|done].
  apply list_find_Some in E as (_ & Hid & _).
  by destruct (negb force && _).
Qed.

(** The plots and the active plot a refresh ends with. *)
Lemma plots_refreshPlots (env : Env) (v : HttpgdViewer)
    (plotsIdResponse : list HttpgdIdResponse.t) (redraw force : bool) :
  plots (refreshPlots env v plotsIdResponse redraw force).1
  = spec_refreshed v force <$> targetIds v plotsIdResponse.
Proof.
  unfold refreshPlots.
  destruct (refreshPlots_resume env v _) as [v' es] eqn:E. cbn [fst].
  apply (f_equal fst) in E. cbn [fst] in E. subst v'.
  unfold refreshPlots_resume. rewrite resolve_promise.
  set (ps := spec_refreshed v force <$> targetIds v plotsIdResponse).
  set (v1 := set_plots ps v).
  set (v2 := if decide _ then _ else v1).
  assert (plots v2 = ps) as H2 by (unfold v2; by destruct (decide _)).
  destruct (_ || _).
  - by rewrite (proj1 (refreshHtml_keeps env v2)).
  - destruct (patchPlots _ v2 (plots v2)) as [v3 es3] eqn:E3. cbn [fst].
    apply (f_equal fst) in E3. cbn [fst] in E3. subst v3.
    by rewrite state_patchPlots.
Qed.

Lemma activePlot_refreshPlots (env : Env) (v : HttpgdViewer)
    (plotsIdResponse : list HttpgdIdResponse.t) (redraw force : bool) :
  let v' := (refreshPlots env v plotsIdResponse redraw force).1 in
  let base :=
    if decide (length (plots v') ≠ length (plots v))
    then HttpgdPlot.id <$> last (plots v') else activePlot v in
  activePlot v'
  = if redraw || bool_decide (webviewPanel v = None) then base
    else match last (newlyAdded (HttpgdPlot.id <$> plots v) (plots v')) with
         | Some p => Some (HttpgdPlot.id p)
         | None => base
         end.
Proof.
  cbn zeta. rewrite plots_refreshPlots.
  unfold refreshPlots.
  destruct (refreshPlots_resume env v _) as [v' es] eqn:E. cbn [fst].
  apply (f_equal fst) in E. cbn [fst] in E. subst v'.
  unfold refreshPlots_resume. rewrite resolve_promise.
  set (ps := spec_refreshed v force <$> targetIds v plotsIdResponse).
  set (v1 := set_plots ps v).
  set (v2 := if decide _ then _ else v1).
  assert (plots v2 = ps) as H2 by (unfold v2; by destruct (decide _)).
  assert (webviewPanel v2 = webviewPanel v) as Hw by (unfold v2; by destruct (decide _)).
  assert (activePlot v2
          = if decide (length ps ≠ length (plots v))
            then HttpgdPlot.id <$> last ps else activePlot v) as Ha.
  { unfold v2. cbn. by destruct (decide _). }
  cbn [task_redraw refreshPlots_begin]. rewrite Hw.
  destruct (redraw || bool_decide (webviewPanel v = None)).
  - by rewrite (proj1 (proj2 (refreshHtml_keeps env v2))).
  - destruct (patchPlots _ v2 (plots v2)) as [v3 es3] eqn:E3. cbn [fst].
    apply (f_equal fst) in E3. cbn [fst] in E3. subst v3.
    rewrite state_patchPlots. cbn. rewrite foldl_patch_active, H2, Ha. done.
Qed.

Lemma ids_refreshPlots (env : Env) (v : HttpgdViewer)
    (plotsIdResponse : list HttpgdIdResponse.t) (redraw force : bool) :
  HttpgdPlot.id <$> plots (refreshPlots env v plotsIdResponse redraw force).1
  = targetIds v plotsIdResponse.
Proof.
  rewrite plots_refreshPlots, <- list_fmap_compose.
  rewrite <- (list_fmap_id (targetIds v plotsIdResponse)) at 2.
  apply list_fmap_ext. intros _ id _. apply id_spec_refreshed.
Qed.

(** A target id with a local plot keeps it when it is not the active plot
    and [force] is off; every other target id is rendered afresh. *)
Lemma spec_refreshed_kept (v : HttpgdViewer) (id : HttpgdPlotId) (plot : HttpgdPlot.t) :
  js_find (λ plt, HttpgdPlot.id plt = id) (plots v) = Some plot →
  activePlot v ≠ Some id →
  spec_refreshed v false id = plot.
Proof.
  intros Hf Ha. unfold spec_refreshed. rewrite Hf. cbn.
  by rewrite bool_decide_eq_true_2.
Qed.

Lemma spec_refreshed_fresh (v : HttpgdViewer) (force : bool) (id : HttpgdPlotId) :
  force = true ∨ activePlot v = Some id
  ∨ js_find (λ plt, HttpgdPlot.id plt = id) (plots v) = None →
  spec_refreshed v force id = fresh v id.
Proof.
  intros H. unfold spec_refreshed.
  destruct (js_find _ _); [|done].
  destruct H as [->|[H|H]]; [done| |done].
  rewrite bool_decide_eq_false_2 by (intros ?; done). by rewrite andb_false_r.
Qed.

(** C2, as the code has it. After a refresh with the incoming ids [L] the
    plots are, in order, those of [L] minus the hidden ids, each kept or
    rendered afresh as the protocol says. When the number of plots has
    changed the last plot of the new list is made the active plot; it still
    is at the end of the refresh unless the display is patched in place (a
    display surface exists and no redraw is asked for) and plots newly
    appear: then the last plot that newly appears is the active one. *)
Theorem refreshPlots_result :
  ∀ (env : Env) (v : HttpgdViewer) (L : list HttpgdIdResponse.t) (redraw force : bool),
    let v' := (refreshPlots env v L redraw force).1 in
    HttpgdPlot.id <$> plots v' = targetIds v L
    ∧ plots v' = spec_refreshed v force <$> targetIds v L
    ∧ (length (plots v') ≠ length (plots v) →
       activePlot v'
       = if redraw || bool_decide (webviewPanel v = None)
         then HttpgdPlot.id <$> last (plots v')
         else match last (newlyAdded (HttpgdPlot.id <$> plots v) (plots v')) with
              | Some p => Some (HttpgdPlot.id p)
              | None => HttpgdPlot.id <$> last (plots v')
              end).
Proof.
  intros env v L redraw force v'.
  split; [apply ids_refreshPlots|].
  split; [apply plots_refreshPlots|].
  intros Hlen. unfold v' in *.
  rewrite activePlot_refreshPlots. by rewrite decide_True.
Qed.

Lemma refreshPlots_result_witness :
  activePlot
    (refreshPlots sample_env (sample_viewer None ["1"; "2"] (Some "1"))
       (HttpgdIdResponse.mk <$> ["1"; "2"; "3"]) false false).1
  = Some "3".
Proof.
  destruct (refreshPlots_result sample_env (sample_viewer None ["1"; "2"] (Some "1"))
              (HttpgdIdResponse.mk <$> ["1"; "2"; "3"]) false false) as (_ & _ & H).
  rewrite H; [reflexivity | vm_compute; lia].
Defined.

(** C2 as stated fails on the last point: the display is patched in place
    and the plot that newly appears is not the last of the list. The count
    goes from 2 to 3, the last plot is ["2"], the active plot is ["3"]. *)
Lemma refreshPlots_active_not_last :
  let v := sample_viewer (Some (mkWebviewPanel true)) ["1"; "2"] (Some "2") in
  let v' := (refreshPlots sample_env v (HttpgdIdResponse.mk <$> ["3"; "1"; "2"]) false false).1 in
  HttpgdPlot.id <$> plots v' = ["3"; "1"; "2"]
  ∧ length (plots v') ≠ length (plots v)
  ∧ HttpgdPlot.id <$> last (plots v') = Some "2"
  ∧ activePlot v' = Some "3"
  ∧ activePlot v' ≠ HttpgdPlot.id <$> last (plots v').
Proof. vm_compute. repeat split; (done || lia). Qed.

(** ** The active index *)

Lemma getIndex_absent (v : HttpgdViewer) (id : HttpgdPlotId) :
  id ∉ HttpgdPlot.id <$> plots v → getIndex v id = (-1)%Z.
Proof.
  intros H. unfold getIndex, js_findIndex.
  destruct (list_find _ _) as [[i p]|] eqn:E; [|done].
  apply list_find_Some in E as (Hp & Hid & _). destruct H.
  apply list_elem_of_fmap. exists p. split; [done|].
  by apply list_elem_of_lookup_2 in Hp.
Qed.

(** C1, on the code. A refresh that rebuilds the display (here: no display
    surface) and brings as many plots as there were leaves the active plot
    alone, also when its id is no longer among the plots: the active index
    is [-1] although there are plots. *)
Theorem refreshPlots_same_count_stale_active :
  ∀ (env : Env) (v : HttpgdViewer) (L : list HttpgdIdResponse.t) (force : bool)
    (a : HttpgdPlotId),
    webviewPanel v = None →
    activePlot v = Some a →
    a ∉ targetIds v L →
    length (targetIds v L) = length (plots v) →
    plots v ≠ [] →
    let v' := (refreshPlots env v L false force).1 in
    plots v' ≠ [] ∧ activePlot v' = Some a ∧ activeIndex v' = (-1)%Z ∧ ¬ activeIndex_ok v'.
Proof.
  intros env v L force a Hw Ha Hnin Hlen Hne v'.
  assert (length (plots v') = length (plots v)) as Hl.
  { unfold v'. by rewrite plots_refreshPlots, length_fmap. }
  assert (plots v' ≠ []) as Hne'.
  { intros E. rewrite E in Hl. destruct (plots v); done. }
  assert (activePlot v' = Some a) as Ha'.
  { unfold v' in *. rewrite activePlot_refreshPlots.
    rewrite Hw, bool_decide_eq_true_2 by done. cbn.
    by rewrite decide_False by (intros ?; done). }
  assert (activeIndex v' = (-1)%Z) as Hi.
  { unfold activeIndex. rewrite Ha'. destruct (truthy (Some a)); [|done].
    apply getIndex_absent. unfold v'. by rewrite ids_refreshPlots. }
  repeat split; try done.
  intros [_ Hr]. specialize (Hr Hne'). lia.
Qed.

Lemma refreshPlots_same_count_stale_active_witness :
  activeIndex
    (refreshPlots sample_env (sample_viewer None ["1"; "2"] (Some "2"))
       (HttpgdIdResponse.mk <$> ["1"; "3"]) false false).1
  = (-1)%Z.
Proof.
  apply (refreshPlots_same_count_stale_active sample_env
           (sample_viewer None ["1"; "2"] (Some "2"))
           (HttpgdIdResponse.mk <$> ["1"; "3"]) false "2");
    [reflexivity | reflexivity | apply (bool_decide_unpack _); by vm_compute
    | reflexivity | discriminate].
Defined.

(** Where the code re-clamps, the active index is in range: assigning
    [activeIndex], the navigation built on it, and hiding a plot. (Plot ids
    are taken to be non-empty strings; an empty id is falsy in
    [get activeIndex].) *)
Lemma getIndex_present (v : HttpgdViewer) (id : HttpgdPlotId) :
  id ∈ HttpgdPlot.id <$> plots v →
  (0 ≤ getIndex v id ≤ Z.of_nat (length (plots v)) - 1)%Z.
Proof.
  intros (p & -> & Hp)%list_elem_of_fmap. unfold getIndex, js_findIndex.
  destruct (list_find_elem_of (λ plt, HttpgdPlot.id plt = HttpgdPlot.id p) (plots v) p)
    as [[i q] E]; [done..|].
  rewrite E. apply list_find_Some in E as (Hq & _ & _).
  apply lookup_lt_Some in Hq. lia.
Qed.

Lemma activeIndex_ok_intro (v : HttpgdViewer) (a : HttpgdPlotId) :
  activePlot v = Some a → a ≠ "" → a ∈ HttpgdPlot.id <$> plots v → activeIndex_ok v.
Proof.
  intros Ha Hne Hin. unfold activeIndex_ok, activeIndex. rewrite Ha.
  rewrite (proj2 (truthy_Some a)) by done.
  pose proof (getIndex_present v a Hin) as Hr.
  assert (plots v ≠ []) as Hp.
  { intros E. rewrite E in Hin. by apply elem_of_nil in Hin. }
  split; [|done]. split; [done|]. lia.
Qed.

Lemma activeIndex_ok_empty (v : HttpgdViewer) :
  plots v = [] → activeIndex_ok v.
Proof.
  intros Hp. assert (activeIndex v = (-1)%Z) as Hi.
  { unfold activeIndex, getIndex, js_findIndex. rewrite Hp.
    destruct (activePlot v) as [a|]; [|done]. by destruct (truthy (Some a)). }
  split; [done|]. intros ?. done.
Qed.

Lemma set_activeIndex_ok (ind : Z) (v : HttpgdViewer) :
  Forall (λ p, HttpgdPlot.id p ≠ "") (plots v) →
  activeIndex_ok (set_activeIndex ind v).
Proof.
  intros Hids. unfold set_activeIndex.
  destruct (decide (length (plots v) = 0)) as [E|E].
  - apply activeIndex_ok_empty. cbn. by apply nil_length_inv.
  - set (i := Z.min _ _).
    assert (0 ≤ i < Z.of_nat (length (plots v)))%Z as Hi by (unfold i; lia).
    unfold js_index. rewrite decide_False by lia.
    destruct (lookup_lt_is_Some_2 (plots v) (Z.to_nat i)) as [p Hp]; [lia|].
    rewrite Hp. cbn [fmap option_fmap option_map].
    apply (activeIndex_ok_intro _ (HttpgdPlot.id p)); cbn.
    + done.
    + rewrite Forall_forall in Hids. apply Hids. by apply list_elem_of_lookup_2 in Hp.
    + apply list_elem_of_fmap. exists p. split; [done|]. by apply list_elem_of_lookup_2 in Hp.
Qed.

(** The index is clamped before [this.plots[ind].id] is read: the read never
    misses. *)
Lemma set_activeIndex_defined (ind : Z) (v : HttpgdViewer) :
  plots v ≠ [] → is_Some (activePlot (set_activeIndex ind v)).
Proof.
  intros Hp. unfold set_activeIndex.
  destruct (decide (length (plots v) = 0)) as [E|E].
  - by apply nil_length_inv in E.
  - cbn. unfold js_index. rewrite decide_False by lia.
    destruct (lookup_lt_is_Some_2 (plots v)
                (Z.to_nat (Z.min (Z.max ind 0) (Z.of_nat (length (plots v)) - 1))))
      as [p Hp']; [lia|].
    by rewrite Hp'.
Qed.

Lemma nextPlot_prevPlot_ok (v : HttpgdViewer) (b : option bool) :
  Forall (λ p, HttpgdPlot.id p ≠ "") (plots v) →
  activeIndex_ok (state (nextPlot v b)) ∧ activeIndex_ok (state (prevPlot v b)).
Proof.
  intros Hids. unfold nextPlot, prevPlot. rewrite !state_focusPlot.
  unfold js_or. cbn [truthy]. rewrite !set_activePlot_same.
  split; by apply set_activeIndex_ok.
Qed.

Lemma hidePlot_ok (v : HttpgdViewer) (id : option HttpgdPlotId) :
  activeIndex_ok v →
  Forall (λ p, HttpgdPlot.id p ≠ "") (plots v) →
  (∀ p, p ∈ plots v → HttpgdPlot.id p ∉ hiddenPlots v) →
  activeIndex_ok (hidePlot v id).1.
Proof.
  intros Hok Hids Hdisj. unfold hidePlot.
  destruct (nullish id (activePlot v)) as [i|]; [|done].
  destruct (truthy (Some i)); [|done]. cbn [hiddenPlots set_hiddenPlots set_plots plots].
  set (ps := filter _ (plots v)).
  set (v2 := set_plots ps _).
  assert (plots v2 = ps) as Hps by done.
  assert (activePlot v2 = activePlot v) as Ha by done.
  assert (Forall (λ p, HttpgdPlot.id p ≠ "") ps) as Hids'.
  { unfold ps. rewrite Forall_forall in Hids |- *.
    intros p [_ Hp]%list_elem_of_filter. by apply Hids. }
  destruct (decide (Some i = activePlot v2)) as [E|E]; cbn [fst].
  - apply set_activeIndex_ok. by rewrite Hps.
  - destruct (decide (plots v = [])) as [Hnil|Hnil].
    { apply activeIndex_ok_empty. rewrite Hps. unfold ps. by rewrite Hnil. }
    destruct Hok as [Hiff Hr]. specialize (Hr Hnil).
    unfold activeIndex in Hr.
    destruct (activePlot v) as [a|] eqn:Hav; [|lia].
    destruct (truthy (Some a)) eqn:Ht; [|lia].
    assert (a ∈ HttpgdPlot.id <$> plots v) as Hin.
    { destruct (decide (a ∈ HttpgdPlot.id <$> plots v)) as [|Hn]; [done|].
      apply getIndex_absent in Hn. lia. }
    apply (activeIndex_ok_intro v2 a); [by rewrite Ha | by apply truthy_Some |].
    rewrite Hps. apply list_elem_of_fmap in Hin as (p & -> & Hp).
    apply list_elem_of_fmap. exists p. split; [done|].
    unfold ps. apply list_elem_of_filter. split; [|done].
    rewrite elem_of_app, list_elem_of_singleton.
    intros [Hh|Hi]; [by apply (Hdisj p)|]. by rewrite Ha, Hi in E.
Qed.

(** * Further properties *)

(** ** Hiding and closing *)

Lemma hiddenPlots_set_activeIndex (ind : Z) (v : HttpgdViewer) :
  hiddenPlots (set_activeIndex ind v) = hiddenPlots v.
Proof. unfold set_activeIndex. by destruct (decide _). Qed.

(** What [hidePlot] does to the plots and to the hidden ids once it has a
    target. *)
Lemma hidePlot_lists (v : HttpgdViewer) (id : option HttpgdPlotId) (i : HttpgdPlotId) :
  nullish id (activePlot v) = Some i →
  i ≠ "" →
  hiddenPlots (hidePlot v id).1 = hiddenPlots v ++ [i]
  ∧ plots (hidePlot v id).1
    = filter (λ plt, HttpgdPlot.id plt ∉ hiddenPlots v ++ [i]) (plots v).
Proof.
  intros Hi Hne. unfold hidePlot. rewrite Hi.
  rewrite (proj2 (truthy_Some i)) by done. cbn [hiddenPlots set_hiddenPlots set_plots plots].
  destruct (decide _); cbn [fst].
  - by rewrite hiddenPlots_set_activeIndex, plots_set_activeIndex.
  - done.
Qed.

(** X1. Once [hidePlot] has a target (the id given, else the active plot),
    the target is among the hidden ids and no plot that is left carries a
    hidden id; in particular the target is gone from the plots. *)
Theorem hidePlot_separates :
  ∀ (v : HttpgdViewer) (id : option HttpgdPlotId) (i : HttpgdPlotId),
    nullish id (activePlot v) = Some i →
    i ≠ "" →
    let v' := (hidePlot v id).1 in
    i ∈ hiddenPlots v'
    ∧ (i ∉ HttpgdPlot.id <$> plots v')
    ∧ (∀ p, p ∈ plots v' → HttpgdPlot.id p ∉ hiddenPlots v').
Proof.
  intros v id i Hi Hne v'. destruct (hidePlot_lists v id i Hi Hne) as [Hh Hp].
  unfold v'. rewrite Hh, Hp. split; [set_solver|]. split.
  - intros (p & -> & [Hn _]%list_elem_of_filter)%list_elem_of_fmap. set_solver.
  - by intros p [Hn _]%list_elem_of_filter.
Qed.

Lemma hidePlot_separates_witness :
  "2" ∉ HttpgdPlot.id <$> plots (hidePlot (sample_viewer None ["1"; "2"] (Some "2")) None).1.
Proof.
  apply (hidePlot_separates (sample_viewer None ["1"; "2"] (Some "2")) None "2");
    [reflexivity | discriminate].
Defined.

(** Without a target [hidePlot] and [closePlot] do nothing, and nothing is
    removed on the server. *)
Lemma hidePlot_closePlot_no_target (v : HttpgdViewer) (id : option HttpgdPlotId) :
  truthy (nullish id (activePlot v)) = false →
  hidePlot v id = (v, []) ∧ closePlot v id = (v, []).
Proof.
  intros H. unfold hidePlot, closePlot.
  destruct (nullish id (activePlot v)) as [i|]; [|done]. by rewrite H.
Qed.

Lemma closePlot_hidePlot (v : HttpgdViewer) (i : HttpgdPlotId) :
  i ≠ "" →
  closePlot v (Some i) = ((hidePlot v (Some i)).1, (hidePlot v (Some i)).2 ++ [ApiRemovePlot i]).
Proof.
  intros Hne. unfold closePlot. cbn [nullish].
  rewrite (proj2 (truthy_Some i)) by done. by destruct (hidePlot v (Some i)).
Qed.

Lemma activePlot_hidePlot_other (v : HttpgdViewer) (i : HttpgdPlotId) :
  i ≠ "" → activePlot v ≠ Some i → activePlot (hidePlot v (Some i)).1 = activePlot v.
Proof.
  intros Hne Ha. unfold hidePlot. cbn [nullish].
  rewrite (proj2 (truthy_Some i)) by done. cbn [activePlot set_plots set_hiddenPlots].
  rewrite decide_False by congruence. done.
Qed.

Lemma activePlot_hidePlot_not_target (v : HttpgdViewer) (i : HttpgdPlotId) :
  i ≠ "" → activePlot (hidePlot v (Some i)).1 ≠ Some i.
Proof.
  intros Hne. destruct (decide (activePlot v = Some i)) as [Ha|Ha].
  - unfold hidePlot. cbn [nullish]. rewrite (proj2 (truthy_Some i)) by done.
    cbn [activePlot set_plots set_hiddenPlots hiddenPlots plots].
    rewrite decide_True by done. cbn [fst].
    set (ps := filter _ (plots v)). unfold set_activeIndex. cbn [plots set_plots].
    destruct (decide (length ps = 0)); [done|]. cbn [activePlot set_activePlot].
    destruct (js_index ps _) as [p|] eqn:E; [|done]. cbn. intros [= Hp].
    unfold js_index in E. destruct (decide _); [done|].
    apply list_elem_of_lookup_2 in E. unfold ps in E.
    apply list_elem_of_filter in E as [Hn _]. set_solver.
  - by rewrite activePlot_hidePlot_other.
Qed.

(** X2. Closing a plot that was hidden before ends in the same plots and
    the same active plot as closing it directly; either way exactly one
    removal is sent to the server, by [closePlot]. *)
Theorem hide_then_close :
  ∀ (v : HttpgdViewer) (i : HttpgdPlotId),
    i ≠ "" →
    let direct := closePlot v (Some i) in
    let hidden_first := closePlot (hidePlot v (Some i)).1 (Some i) in
    plots hidden_first.1 = plots direct.1
    ∧ activePlot hidden_first.1 = activePlot direct.1
    ∧ removals direct.2 = [i]
    ∧ removals (hidePlot v (Some i)).2 = [].
Proof.
  intros v i Hne. cbn zeta. rewrite !closePlot_hidePlot by done. cbn [fst snd].
  set (v1 := (hidePlot v (Some i)).1).
  destruct (hidePlot_lists v (Some i) i eq_refl Hne) as [Hh Hp].
  destruct (hidePlot_lists v1 (Some i) i eq_refl Hne) as [Hh1 Hp1].
  fold v1 in Hh, Hp.
  assert (removals (hidePlot v (Some i)).2 = []) as Hno.
  { unfold hidePlot. cbn [nullish]. rewrite (proj2 (truthy_Some i)) by done.
    cbn [hiddenPlots set_hiddenPlots set_plots plots activePlot].
    set (v2 := set_plots _ _).
    unfold _hidePlot, _focusPlot, setContextValues, postWebviewMessage.
    destruct (decide _); cbn [snd].
    - destruct (nullish None _) as [a|]; [destruct (truthy (Some a))|];
        by destruct (webviewPanel _) as [[[]]|].
    - by destruct (webviewPanel _). }
  split; [|split; [|split]]; [| | |done].
  - rewrite Hp1, Hh, Hp, list_filter_filter. apply list_filter_iff.
    intros p. rewrite !elem_of_app. tauto.
  - rewrite activePlot_hidePlot_other; [done..|]. by apply activePlot_hidePlot_not_target.
  - unfold removals in *. by rewrite omap_app, Hno.
Qed.

Lemma hide_then_close_witness :
  plots (closePlot (hidePlot (sample_viewer None ["1"; "2"] (Some "2")) (Some "1")).1 (Some "1")).1
  = [sample_plot "2"].
Proof.
  transitivity (plots (closePlot (sample_viewer None ["1"; "2"] (Some "2")) (Some "1")).1);
    [|reflexivity].
  apply (hide_then_close (sample_viewer None ["1"; "2"] (Some "2")) "1"). discriminate.
Defined.

(** ** Navigation with plots in the session *)

Lemma getIndex_lookup (v : HttpgdViewer) (j : nat) (p : HttpgdPlot.t) :
  NoDup (HttpgdPlot.id <$> plots v) →
  plots v !! j = Some p →
  getIndex v (HttpgdPlot.id p) = Z.of_nat j.
Proof.
  intros Hnd Hj. unfold getIndex, js_findIndex.
  destruct (list_find _ _) as [[i q]|] eqn:E.
  - apply list_find_Some in E as (Hi & Hq & _). f_equal.
    apply (NoDup_lookup _ i j (HttpgdPlot.id p) Hnd); rewrite list_lookup_fmap.
    + by rewrite Hi; cbn; rewrite Hq.
    + by rewrite Hj.
  - apply list_find_None in E. rewrite Forall_forall in E.
    destruct (E p); [|done]. by apply list_elem_of_lookup_2 in Hj.
Qed.

Lemma js_index_clamp {A} (l : list A) (x : Z) :
  l ≠ [] → js_index l (clamp (length l) x) = l !! Z.to_nat (clamp (length l) x)
           ∧ is_Some (l !! Z.to_nat (clamp (length l) x)).
Proof.
  intros Hl. assert (length l ≠ 0%nat) by (by destruct l).
  unfold js_index, clamp. rewrite decide_False by lia.
  split; [done|]. apply lookup_lt_is_Some_2. lia.
Qed.

(** Assigning [activeIndex] selects the plot at the clamped position. *)
Lemma activePlot_set_activeIndex (ind : Z) (v : HttpgdViewer) :
  plots v ≠ [] →
  activePlot (set_activeIndex ind v)
  = HttpgdPlot.id <$> plots v !! Z.to_nat (clamp (length (plots v)) ind).
Proof.
  intros Hp. unfold set_activeIndex.
  rewrite decide_False by (by destruct (plots v)).
  cbn [activePlot set_activePlot].
  change (Z.min (Z.max ind 0) _) with (clamp (length (plots v)) ind).
  by rewrite (proj1 (js_index_clamp _ _ Hp)).
Qed.

Lemma activeIndex_set_activeIndex (ind : Z) (v : HttpgdViewer) :
  plots v ≠ [] →
  NoDup (HttpgdPlot.id <$> plots v) →
  Forall (λ p, HttpgdPlot.id p ≠ "") (plots v) →
  activeIndex (set_activeIndex ind v) = clamp (length (plots v)) ind.
Proof.
  intros Hp Hnd Hids.
  destruct (proj2 (js_index_clamp (plots v) ind Hp)) as [p Hl].
  unfold activeIndex. rewrite activePlot_set_activeIndex, Hl by done. cbn.
  assert (HttpgdPlot.id p ≠ "") as Hne.
  { rewrite Forall_forall in Hids. apply Hids. by apply list_elem_of_lookup_2 in Hl. }
  apply String.eqb_neq in Hne. rewrite Hne. cbn.
  rewrite (getIndex_lookup _ (Z.to_nat (clamp (length (plots v)) ind)) p).
  - unfold clamp. assert (length (plots v) ≠ 0%nat) by (by destruct (plots v)). lia.
  - by rewrite plots_set_activeIndex.
  - by rewrite plots_set_activeIndex.
Qed.

(** X3. In a session whose plots have distinct, non-empty ids, [nextPlot]
    and [prevPlot] move the active index by one and clamp it to the
    positions of [plots]; with [true] they jump to the last and to the
    first plot. A stale or unset active plot counts as index [-1]. *)
Theorem navigation_moves_and_clamps :
  ∀ (v : HttpgdViewer) (b : option bool),
    plots v ≠ [] →
    NoDup (HttpgdPlot.id <$> plots v) →
    Forall (λ p, HttpgdPlot.id p ≠ "") (plots v) →
    let n := length (plots v) in
    activeIndex (state (nextPlot v b))
    = (if default false b then Z.of_nat n - 1 else clamp n (activeIndex v + 1))%Z
    ∧ activeIndex (state (prevPlot v b))
      = (if default false b then 0 else clamp n (activeIndex v - 1))%Z.
Proof.
  intros v b Hp Hnd Hids n. unfold nextPlot, prevPlot. rewrite !state_focusPlot.
  unfold js_or. cbn [truthy]. rewrite !set_activePlot_same.
  rewrite !activeIndex_set_activeIndex by done. fold n.
  assert (n ≠ 0%nat) by (unfold n; by destruct (plots v)).
  destruct (default false b); unfold clamp; split; try done; lia.
Qed.

Lemma navigation_moves_and_clamps_witness :
  activeIndex (state (nextPlot (sample_viewer None ["1"; "2"; "3"] (Some "3")) None)) = 2%Z.
Proof.
  apply (navigation_moves_and_clamps (sample_viewer None ["1"; "2"; "3"] (Some "3")) None);
    [discriminate | apply (bool_decide_unpack _); by vm_compute
    | apply (bool_decide_unpack _); by vm_compute].
Defined.

(** X4. With plots in the session, all with non-empty ids, [nextPlot] and
    [prevPlot] never throw, and neither does [focusPlot] for the id of a
    plot that is there; that plot is the active plot afterwards. *)
Theorem navigation_with_plots_is_safe :
  ∀ (v : HttpgdViewer) (b : option bool) (j : nat) (p : HttpgdPlot.t),
    Forall (λ p, HttpgdPlot.id p ≠ "") (plots v) →
    plots v !! j = Some p →
    thrown (nextPlot v b) = None
    ∧ thrown (prevPlot v b) = None
    ∧ thrown (focusPlot v (Some (HttpgdPlot.id p))) = None
    ∧ activePlot (state (focusPlot v (Some (HttpgdPlot.id p)))) = Some (HttpgdPlot.id p).
Proof.
  intros v b j p Hids Hin%list_elem_of_lookup_2.
  assert (∀ w, activeIndex_ok w → plots w ≠ [] → thrown (focusPlot w None) = None) as Hsafe.
  { intros w [_ Hr] Hw. specialize (Hr Hw). unfold focusPlot.
    unfold js_or. cbn [truthy]. rewrite set_activePlot_same.
    unfold js_index. rewrite decide_False by lia.
    destruct (lookup_lt_is_Some_2 (plots w) (Z.to_nat (activeIndex w))) as [q Hq]; [lia|].
    rewrite Hq. by destruct (_ || _). }
  assert (plots v ≠ []) as Hp by (intros E; rewrite E in Hin; by apply elem_of_nil in Hin).
  assert (HttpgdPlot.id p ≠ "") as Hne by (rewrite Forall_forall in Hids; by apply Hids).
  split; [|split; [|split]].
  - apply Hsafe; [by apply set_activeIndex_ok | by rewrite plots_set_activeIndex].
  - apply Hsafe; [by apply set_activeIndex_ok | by rewrite plots_set_activeIndex].
  - unfold focusPlot. rewrite js_or_truthy by (by apply truthy_Some).
    set (w := set_activePlot _ v).
    assert (activeIndex_ok w) as [_ Hr].
    { apply (activeIndex_ok_intro w (HttpgdPlot.id p)); [done..|].
      apply list_elem_of_fmap. by exists p. }
    specialize (Hr Hp). unfold js_index. rewrite decide_False by lia.
    destruct (lookup_lt_is_Some_2 (plots w) (Z.to_nat (activeIndex w))) as [q Hq];
      [lia|].
    rewrite Hq. by destruct (_ || _).
  - rewrite state_focusPlot. by rewrite js_or_truthy by (by apply truthy_Some).
Qed.

Lemma navigation_with_plots_is_safe_witness :
  thrown (focusPlot (sample_viewer None ["1"; "2"] (Some "2")) (Some "1")) = None.
Proof.
  apply (navigation_with_plots_is_safe (sample_viewer None ["1"; "2"] (Some "2")) None
           0%nat (sample_plot "1"));
    [apply (bool_decide_unpack _); by vm_compute | reflexivity].
Defined.

(** ** Hiding the active plot *)

Lemma filter_all {A} (P : A → Prop) `{!∀ x, Decision (P x)} (l : list A) :
  Forall P l → filter P l = l.
Proof.
  induction 1 as [|x l Hx _ IH]; [done|]. by rewrite filter_cons_True, IH.
Qed.

(** With distinct ids and nothing hidden among the plots, hiding an id
    takes exactly the plot that carries it out of the list. *)
Lemma filter_hidden_delete (ps : list HttpgdPlot.t) (hiddenIds : list HttpgdPlotId)
    (j : nat) (p : HttpgdPlot.t) :
  NoDup (HttpgdPlot.id <$> ps) →
  (∀ q, q ∈ ps → HttpgdPlot.id q ∉ hiddenIds) →
  ps !! j = Some p →
  filter (λ plt, HttpgdPlot.id plt ∉ hiddenIds ++ [HttpgdPlot.id p]) ps = delete j ps.
Proof.
  revert j. induction ps as [|q ps IH]; intros j Hnd Hh Hj; [done|].
  rewrite fmap_cons in Hnd. apply NoDup_cons in Hnd as [Hq Hnd].
  destruct j as [|j]; cbn in Hj.
  - injection Hj as ->. rewrite filter_cons_False by set_solver. cbn.
    apply filter_all, Forall_forall. intros r Hr.
    rewrite elem_of_app, list_elem_of_singleton. intros [Hin|Heq].
    + apply (Hh r); [by right | done].
    + apply Hq. rewrite <- Heq. apply list_elem_of_fmap. by exists r.
  - rewrite filter_cons_True.
    + cbn. f_equal. apply IH; [done| |done]. intros r Hr. apply Hh. by right.
    + rewrite elem_of_app, list_elem_of_singleton. intros [Hin|Heq].
      * apply (Hh q); [by left | done].
      * apply Hq. rewrite Heq. apply list_elem_of_fmap. exists p. split; [done|].
        by apply list_elem_of_lookup_2 in Hj.
Qed.

(** X5. In a session whose plots have distinct ids, none of them hidden,
    hiding the active plot takes exactly that plot out of [plots] and makes
    its successor the active plot; when it was the last plot its predecessor
    becomes active, and when it was the only plot none is active. *)
Theorem hidePlot_active_moves_on :
  ∀ (v : HttpgdViewer) (j : nat) (p : HttpgdPlot.t),
    NoDup (HttpgdPlot.id <$> plots v) →
    (∀ q, q ∈ plots v → HttpgdPlot.id q ∉ hiddenPlots v) →
    plots v !! j = Some p →
    HttpgdPlot.id p ≠ "" →
    activePlot v = Some (HttpgdPlot.id p) →
    let v' := (hidePlot v None).1 in
    plots v' = delete j (plots v)
    ∧ activePlot v'
      = HttpgdPlot.id <$>
          match plots v !! S j with
          | Some q => Some q
          | None => match j with O => None | S k => plots v !! k end
          end.
Proof.
  intros v j p Hnd Hh Hj Hne Ha v'.
  assert (nullish None (activePlot v) = Some (HttpgdPlot.id p)) as Hn by (by rewrite Ha).
  destruct (hidePlot_lists v None _ Hn Hne) as [_ Hp].
  rewrite (filter_hidden_delete _ _ j p) in Hp by done.
  split; [done|].
  assert (activeIndex v = Z.of_nat j) as Hi.
  { unfold activeIndex. rewrite Ha, (proj2 (truthy_Some _)) by done.
    by apply getIndex_lookup. }
  unfold v', hidePlot. rewrite Hn, (proj2 (truthy_Some _)) by done.
  cbn [hiddenPlots set_hiddenPlots set_plots plots activePlot].
  rewrite (filter_hidden_delete _ _ j p) by done.
  rewrite decide_True by done. cbn [fst]. rewrite Hi.
  set (w := set_plots _ _). change (plots w) with (delete j (plots v)) in *.
  pose proof (lookup_lt_Some _ _ _ Hj) as Hlt.
  pose proof (length_delete (plots v) j (ltac:(eauto))) as Hlen.
  destruct (decide (delete j (plots v) = [])) as [E|E].
  - unfold set_activeIndex. change (plots w) with (delete j (plots v)). rewrite E. cbn.
    rewrite E in Hlen. cbn in Hlen.
    assert (j = 0%nat) as -> by lia.
    rewrite (lookup_ge_None_2 (plots v) 1) by lia. done.
  - rewrite activePlot_set_activeIndex by done.
    change (plots w) with (delete j (plots v)).
    assert (length (delete j (plots v)) ≠ 0%nat) by (by destruct (delete j (plots v))).
    unfold clamp. destruct (plots v !! S j) as [q|] eqn:Hs.
    + pose proof (lookup_lt_Some _ _ _ Hs).
      replace (Z.to_nat _) with j by lia.
      by rewrite list_lookup_delete_ge, Hs by lia.
    + apply lookup_ge_None in Hs. destruct j as [|k]; [lia|].
      replace (Z.to_nat _) with k by lia.
      by rewrite list_lookup_delete_lt by lia.
Qed.

Lemma hidePlot_active_moves_on_witness :
  activePlot (hidePlot (sample_viewer None ["1"; "2"; "3"; "4"] (Some "4")) None).1 = Some "3".
Proof.
  apply (hidePlot_active_moves_on (sample_viewer None ["1"; "2"; "3"; "4"] (Some "4")) 3
           (sample_plot "4"));
    [apply (bool_decide_unpack _); by vm_compute | intros q _; apply not_elem_of_nil
    | reflexivity | discriminate | reflexivity].
Defined.

(** ** More on refresh *)

Lemma refreshPlots_fst (env : Env) (v : HttpgdViewer)
    (plotsIdResponse : list HttpgdIdResponse.t) (redraw force : bool) :
  (refreshPlots env v plotsIdResponse redraw force).1
  = (refreshPlots_resume env v (refreshPlots_begin v plotsIdResponse redraw force)).1.
Proof. unfold refreshPlots. by destruct (refreshPlots_resume env v _). Qed.

(** A refresh changes the plots, the active plot, the display surface and
    nothing else of what the session shows: hidden ids and zoom stay. *)
Lemma refreshPlots_resume_frame (env : Env) (v : HttpgdViewer) (t : RefreshTask) :
  let v' := (refreshPlots_resume env v t).1 in
  hiddenPlots v' = hiddenPlots v ∧ zoom v' = zoom v
  ∧ viewWidth v' = viewWidth v ∧ viewHeight v' = viewHeight v.
Proof.
  cbn zeta. unfold refreshPlots_resume.
  set (v1 := set_plots _ v). set (v2 := if decide _ then _ else v1).
  assert (hiddenPlots v2 = hiddenPlots v ∧ zoom v2 = zoom v
          ∧ viewWidth v2 = viewWidth v ∧ viewHeight v2 = viewHeight v) as Hv2.
  { unfold v2. by destruct (decide _). }
  destruct (_ || _).
  - unfold refreshHtml. by destruct (webviewPanel v2).
  - destruct (patchPlots _ v2 (plots v2)) as [v3 es3] eqn:E3. cbn [fst].
    apply (f_equal fst) in E3. cbn [fst] in E3. subst v3.
    by rewrite state_patchPlots.
Qed.

(** The plots a suspended refresh delivers, whatever state it resumes on. *)
Lemma plots_refreshPlots_resume (env : Env) (v : HttpgdViewer) (t : RefreshTask) :
  plots (refreshPlots_resume env v t).1 = resolve v <$> newPlotPromises t.
Proof.
  unfold refreshPlots_resume.
  set (ps := resolve v <$> newPlotPromises t).
  set (v1 := set_plots ps v).
  set (v2 := if decide _ then _ else v1).
  assert (plots v2 = ps) as H2 by (unfold v2; by destruct (decide _)).
  destruct (_ || _).
  - by rewrite (proj1 (refreshHtml_keeps env v2)).
  - destruct (patchPlots _ v2 (plots v2)) as [v3 es3] eqn:E3. cbn [fst].
    apply (f_equal fst) in E3. cbn [fst] in E3. subst v3.
    by rewrite state_patchPlots.
Qed.

Lemma ids_newPlotPromises (v0 v : HttpgdViewer) (L : list HttpgdIdResponse.t)
    (redraw force : bool) :
  HttpgdPlot.id <$> (resolve v <$> newPlotPromises (refreshPlots_begin v0 L redraw force))
  = targetIds v0 L.
Proof.
  unfold refreshPlots_begin, targetIds. cbn [newPlotPromises].
  rewrite <- !list_fmap_compose.
  set (ids := filter _ _). rewrite <- (list_fmap_id ids) at 2.
  apply list_fmap_ext. intros _ id _. cbn. unfold js_find.
  destruct (list_find _ _) as [[i plot]|] eqn:E; cbn; [|done].
  apply list_find_Some in E as (_ & Hid & _).
  by destruct (force || _).
Qed.

(** X6. What a refresh shows is fixed when it starts. The plots it ends
    with carry, in order, the target ids computed at the start: the ids of
    the incoming list that were not hidden then, whatever happened to the
    session while the render requests were pending; the hidden ids are left
    as the refresh finds them when it resumes. So a plot hidden before the
    refresh starts is not shown by it, while a plot hidden during the
    requests comes back: its id is then among the plots and among the
    hidden ids. [v0] is the session when the refresh starts, [v] the session
    when the responses are in. *)
Theorem refresh_shows_targets_of_its_start :
  ∀ (env : Env) (v0 v : HttpgdViewer) (L : list HttpgdIdResponse.t) (redraw force : bool),
    let t := refreshPlots_begin v0 L redraw force in
    let v' := (refreshPlots_resume env v t).1 in
    HttpgdPlot.id <$> plots v' = targetIds v0 L
    ∧ hiddenPlots v' = hiddenPlots v
    ∧ (∀ id, id ∈ hiddenPlots v0 → id ∉ HttpgdPlot.id <$> plots v')
    ∧ (∀ id, id ∈ HttpgdIdResponse.id <$> L → id ∉ hiddenPlots v0 → id ∈ hiddenPlots v →
         id ∈ HttpgdPlot.id <$> plots v' ∧ id ∈ hiddenPlots v').
Proof.
  intros env v0 v L redraw force t v'.
  assert (HttpgdPlot.id <$> plots v' = targetIds v0 L) as Hids.
  { unfold v', t. rewrite plots_refreshPlots_resume. apply ids_newPlotPromises. }
  assert (hiddenPlots v' = hiddenPlots v) as Hh by apply refreshPlots_resume_frame.
  split; [done|]. split; [done|]. split.
  - intros id Hid. rewrite Hids. unfold targetIds.
    by intros [Hn _]%list_elem_of_filter.
  - intros id HL Hn Hv. rewrite Hids, Hh. split; [|done].
    unfold targetIds. by apply list_elem_of_filter.
Qed.

(** A refresh of the plots 1 and 2 during whose requests plot 2 is hidden:
    plot 2 is shown again. *)
Lemma refresh_shows_targets_of_its_start_witness :
  let v0 := sample_viewer None ["1"; "2"] (Some "1") in
  let t := refreshPlots_begin v0 (HttpgdIdResponse.mk <$> ["1"; "2"]) false false in
  let v := (hidePlot v0 (Some "2")).1 in
  let v' := (refreshPlots_resume sample_env v t).1 in
  ("2" ∉ HttpgdPlot.id <$> plots v)
  ∧ ("2" ∈ HttpgdPlot.id <$> plots v')
  ∧ ("2" ∈ hiddenPlots v').
Proof.
  intros v0 t v v'. split; [apply (bool_decide_unpack _); by vm_compute|].
  destruct (refresh_shows_targets_of_its_start sample_env v0 v
              (HttpgdIdResponse.mk <$> ["1"; "2"]) false false) as (_ & _ & _ & H).
  apply (H "2"); apply (bool_decide_unpack _); by vm_compute.
Defined.

Lemma requests_refreshPlots_begin (v : HttpgdViewer) (L : list HttpgdIdResponse.t)
    (redraw force : bool) :
  requests (refreshPlots_begin v L redraw force)
  = (λ id, ApiGetPlot (svgpRequest id (viewWidth v) (viewHeight v) (zoom v)))
      <$> filter (λ id, keepsCached v force id = false) (targetIds v L).
Proof.
  unfold requests, refreshPlots_begin, targetIds.
  cbn [newPlotPromises]. generalize (filter (λ id, id ∉ hiddenPlots v) (HttpgdIdResponse.id <$> L)).
  intros l. induction l as [|id l IH]; [done|].
  rewrite fmap_cons. cbn [omap list_omap]. rewrite IH, filter_cons. clear IH.
  unfold keepsCached.
  destruct (js_find _ _) as [plot|] eqn:Hf.
  - rewrite (bool_decide_eq_true_2 (is_Some (Some plot))) by eauto.
    destruct force; cbn [negb andb orb]; [by rewrite decide_True|].
    destruct (decide (Some id = activePlot v)) as [E|E].
    + rewrite (bool_decide_eq_true_2 _ E), bool_decide_eq_false_2 by congruence.
      by rewrite decide_True.
    + rewrite (bool_decide_eq_false_2 _ E), bool_decide_eq_true_2 by congruence.
      by rewrite decide_False.
  - rewrite (bool_decide_eq_false_2 (is_Some None)) by apply is_Some_None.
    rewrite andb_false_r. cbn. by rewrite decide_True.
Qed.

(** X7. A refresh first sends its render requests: one per target id, in
    order, for the ids that are new, active or forced, at the current view
    size and zoom, and none for a target whose local plot is kept. What
    follows in its effects is the display update. *)
Theorem refreshPlots_requests :
  ∀ (env : Env) (v : HttpgdViewer) (L : list HttpgdIdResponse.t) (redraw force : bool),
    let t := refreshPlots_begin v L redraw force in
    (refreshPlots env v L redraw force).2
    = ((λ id, ApiGetPlot (svgpRequest id (viewWidth v) (viewHeight v) (zoom v)))
         <$> filter (λ id, keepsCached v force id = false) (targetIds v L))
      ++ (refreshPlots_resume env v t).2.
Proof.
  intros env v L redraw force t. unfold refreshPlots. fold t.
  destruct (refreshPlots_resume env v t) as [v' es]. cbn [snd].
  unfold t. by rewrite requests_refreshPlots_begin.
Qed.

(** When every target already has a local plot, an unforced refresh asks
    the server for the active plot only. *)
Lemma refreshPlots_requests_all_cached (v : HttpgdViewer) (L : list HttpgdIdResponse.t)
    (redraw : bool) :
  (∀ id, id ∈ targetIds v L → id ∈ HttpgdPlot.id <$> plots v) →
  requests (refreshPlots_begin v L redraw false)
  = (λ id, ApiGetPlot (svgpRequest id (viewWidth v) (viewHeight v) (zoom v)))
      <$> filter (λ id, activePlot v = Some id) (targetIds v L).
Proof.
  intros Hall. rewrite requests_refreshPlots_begin. f_equal.
  induction (targetIds v L) as [|id l IH]; [done|].
  rewrite !filter_cons, IH by (intros i Hi; apply Hall; by right). clear IH.
  assert (is_Some (js_find (λ plt, HttpgdPlot.id plt = id) (plots v))) as Hs.
  { assert (id ∈ HttpgdPlot.id <$> plots v) as (p & Hp & Hin)%list_elem_of_fmap
      by (apply Hall; by left).
    unfold js_find.
    destruct (list_find_elem_of (λ plt, HttpgdPlot.id plt = id) (plots v) p) as [r ->];
      [done..|]. by eexists. }
  unfold keepsCached. cbn [negb andb]. rewrite (bool_decide_eq_true_2 _ Hs). cbn [andb].
  destruct (decide (activePlot v = Some id)) as [E|E].
  - rewrite bool_decide_eq_false_2 by (intros ?; done). by rewrite decide_True.
  - rewrite bool_decide_eq_true_2 by done. by rewrite decide_False.
Qed.

(** X8. [resetPlots] empties the hidden ids, puts the zoom back to 1 and
    starts a forced refresh with redraw: one render request per plot the
    server knows, and once the pending refresh finishes the session shows all
    of the server's plots, each freshly rendered at zoom 1. *)
Theorem resetPlots_restores_all :
  ∀ (env : Env) (v : HttpgdViewer),
    let v1 := (resetPlots v).1 in
    let ids := HttpgdIdResponse.id <$> getPlots (api v) in
    let t := refreshPlots_begin v1 (getPlots (api v)) true true in
    let v2 := (refreshPlots_resume env v1 t).1 in
    (resetPlots v).2
    = ((λ id, ApiGetPlot (svgpRequest id (viewWidth v) (viewHeight v) zoom0)) <$> ids)
      ++ [Await (RefreshPending t)]
    ∧ hiddenPlots v2 = []
    ∧ zoom v2 = zoom0
    ∧ plots v2 = fresh v1 <$> ids.
Proof.
  intros env v v1 ids t v2.
  assert (targetIds v1 (getPlots (api v)) = ids) as Ht.
  { unfold targetIds. apply filter_all, Forall_forall. intros i _. apply not_elem_of_nil. }
  split; [|split; [|split]].
  - unfold resetPlots, spawnRefresh. cbn [snd].
    change (set_zoom zoom0 (set_hiddenPlots [] v)) with v1.
    change (getPlots (api v1)) with (getPlots (api v)). fold t. f_equal.
    unfold t. rewrite requests_refreshPlots_begin, Ht.
    rewrite filter_all; [done|]. apply Forall_forall. by intros i _.
  - unfold v2. by rewrite (proj1 (refreshPlots_resume_frame env v1 t)).
  - unfold v2. by rewrite (proj1 (proj2 (refreshPlots_resume_frame env v1 t))).
  - unfold v2, t. rewrite <- refreshPlots_fst, plots_refreshPlots, Ht.
    apply list_fmap_ext. intros _ i _. by apply spec_refreshed_fresh; left.
Qed.

(** X9. Refresh is debounced: with a non-zero refresh interval a change
    event only clears the timer that is pending, if any, and arms a new
    one; nothing else of the session changes and nothing is requested. A
    second event before the timer fires clears the first timer and arms one
    for the newer id list, so that only the newer list is refreshed; the
    plots are untouched until then. With interval 0 the refresh starts at
    once and no timer is set. *)
Theorem refreshPlotsDelayed_debounces :
  ∀ (v : HttpgdViewer) (L1 L2 : list HttpgdIdResponse.t) (redraw1 force1 redraw2 force2 : bool),
    let t1 := mkTimer (refreshTimeoutLength v) (RefreshCallback L1 redraw1 force1) in
    let t2 := mkTimer (refreshTimeoutLength v) (RefreshCallback L2 redraw2 force2) in
    let r1 := refreshPlotsDelayed v L1 redraw1 force1 in
    let r2 := refreshPlotsDelayed r1.1 L2 redraw2 force2 in
    (refreshTimeoutLength v ≠ 0%Z →
       r1 = (set_refreshTimeout (Some t1) v, [ClearTimeout (refreshTimeout v); SetTimeout t1])
       ∧ r2 = (set_refreshTimeout (Some t2) v, [ClearTimeout (Some t1); SetTimeout t2])
       ∧ refreshTimeout r1.1 = Some t1
       ∧ refreshTimeout r2.1 = Some t2
       ∧ plots r1.1 = plots v ∧ activePlot r1.1 = activePlot v
       ∧ plots r2.1 = plots v ∧ activePlot r2.1 = activePlot v)
    ∧ (refreshTimeoutLength v = 0%Z →
       r1 = (v, spawnRefresh v L1 redraw1 force1)).
Proof.
  intros v L1 L2 redraw1 force1 redraw2 force2. cbn zeta. split.
  - intros Hne. unfold refreshPlotsDelayed.
    rewrite decide_False by done. cbn [fst snd refreshTimeoutLength set_refreshTimeout].
    rewrite decide_False by done. done.
  - intros H0. unfold refreshPlotsDelayed. by rewrite decide_True.
Qed.

Lemma refreshPlotsDelayed_debounces_witness :
  refreshPlotsDelayed fresh_viewer (HttpgdIdResponse.mk <$> ["1"]) false false
  = (set_refreshTimeout
       (Some (mkTimer 10 (RefreshCallback (HttpgdIdResponse.mk <$> ["1"]) false false)))
       fresh_viewer,
     [ClearTimeout None;
      SetTimeout (mkTimer 10 (RefreshCallback (HttpgdIdResponse.mk <$> ["1"]) false false))])
  ∧ refreshTimeout
      (refreshPlotsDelayed
         (refreshPlotsDelayed fresh_viewer (HttpgdIdResponse.mk <$> ["1"]) false false).1
         (HttpgdIdResponse.mk <$> ["1"; "2"]) false false).1
    = Some (mkTimer 10 (RefreshCallback (HttpgdIdResponse.mk <$> ["1"; "2"]) false false)).
Proof.
  destruct (refreshPlotsDelayed_debounces fresh_viewer (HttpgdIdResponse.mk <$> ["1"])
              (HttpgdIdResponse.mk <$> ["1"; "2"]) false false false false) as [H _].
  destruct H as (H1 & _ & _ & H2 & _); [vm_compute; discriminate|].
  split; [exact H1 | exact H2].
Defined.

Lemma refreshPlotsDelayed_immediate (v : HttpgdViewer) (L : list HttpgdIdResponse.t)
    (redraw force : bool) :
  refreshTimeoutLength v = 0%Z →
  refreshPlotsDelayed v L redraw force = (v, spawnRefresh v L redraw force).
Proof. intros H. unfold refreshPlotsDelayed. by rewrite decide_True. Qed.

(** ** More on resize *)

(** X10. Passive resizes are coalesced: while the timer of a first passive
    resize is pending, a second one sets no further timer and sends nothing,
    but its size is the one recorded; when the timer fires, the render
    request for the active plot is for that latest size. *)
Theorem handleResize_coalesces :
  ∀ (v : HttpgdViewer) (h1 w1 h2 w2 : Z) (a : HttpgdPlotId),
    resizeTimeoutLength v ≠ 0%Z →
    resizeTimeout v = None →
    activePlot v = Some a →
    a ≠ "" →
    let r1 := handleResize v h1 w1 false in
    let r2 := handleResize r1.1 h2 w2 false in
    r1.2 = [SetTimeout (mkTimer (resizeTimeoutLength v) ResizeCallback)]
    ∧ r2.2 = []
    ∧ resizeTimeout r2.1 = Some (mkTimer (resizeTimeoutLength v) ResizeCallback)
    ∧ resizeTimeout_fire r2.1
      = [ApiGetPlot (svgpRequest a w2 h2 (zoom v)); Await (ResizePending a w2 h2 (zoom v))].
Proof.
  intros v h1 w1 h2 w2 a Hne Hnone Ha Hna. cbn zeta.
  unfold handleResize.
  cbn [resizeTimeoutLength set_viewWidth set_viewHeight resizeTimeout].
  rewrite bool_decide_eq_false_2 by done. cbn [orb]. rewrite Hnone.
  cbn [fst snd resizeTimeoutLength set_resizeTimeout set_viewWidth set_viewHeight resizeTimeout].
  rewrite bool_decide_eq_false_2 by done. cbn [orb fst snd].
  repeat split.
  unfold resizeTimeout_fire, resizePlot_begin. cbn. rewrite Ha. cbn.
  apply String.eqb_neq in Hna. by rewrite Hna.
Qed.

Lemma handleResize_coalesces_witness :
  resizeTimeout_fire
    (handleResize (handleResize (sample_viewer None ["1"] (Some "1")) 500 700 false).1
       480 640 false).1
  = [ApiGetPlot (svgpRequest "1" 640 480 1); Await (ResizePending "1" 640 480 1)].
Proof.
  apply (handleResize_coalesces (sample_viewer None ["1"] (Some "1")) 500 700 480 640 "1");
    [vm_compute; discriminate | reflexivity | reflexivity | discriminate].
Defined.

(** What arrives when the resize request is answered: the plot is as large
    as the view was when the request went out. *)
Lemma resizePlot_resume_size (v : HttpgdViewer) (id : HttpgdPlotId) (w h : Z) (z : float) :
  let v' := (resizePlot_resume v id w h z).1 in
  plotWidth v' = w ∧ plotHeight v' = h ∧ plots v' = plots v ∧ activePlot v' = activePlot v.
Proof. done. Qed.

(** ** More on export, layout and show *)

(** X11. Whatever its arguments and the user's answers, [exportPlot] leaves
    plots, active plot, hidden ids and zoom alone. When no format is given
    and the format picker is dismissed, or no file is given and the save
    dialog is dismissed, nothing is fetched and no file is opened. *)
Theorem exportPlot_frame_and_cancel :
  ∀ (env : Env) (v : HttpgdViewer) (id : option HttpgdPlotId)
    (rendererId : option HttpgdRendererId) (outFile : option string),
    let r := exportPlot env v id rendererId outFile in
    (plots (state r) = plots v ∧ activePlot (state r) = activePlot v
     ∧ hiddenPlots (state r) = hiddenPlots v ∧ zoom (state r) = zoom v)
    ∧ ((truthy rendererId = false ∧ truthy (showQuickPick env) = false)
       ∨ (truthy outFile = false ∧ showSaveDialog env = None) →
       filter (λ e, isTransfer e = true) (effects r) = []).
Proof.
  intros env v id rid out. cbn zeta. unfold exportPlot.
  destruct (js_find _ (plots v)) as [plot|]; [|by split].
  destruct (truthy rid) eqn:Hr; cbn -[truthy].
  - rewrite Hr. cbn -[truthy].
    destruct (truthy out) eqn:Ho; cbn -[truthy].
    + destruct out as [f|]; [|done].
      destruct (getPlot (api v) _); (split; [done|]); intros [[? _]|[? _]]; done.
    + destruct (showSaveDialog env) as [f|]; cbn -[truthy].
      * destruct (getPlot _ _); (split; [done|]); intros [[? _]|[_ ?]]; done.
      * split; [done|]. by intros _.
  - destruct (truthy (showQuickPick env)) eqn:Hq; cbn -[truthy]; [|by split].
    destruct (truthy out) eqn:Ho; cbn -[truthy].
    + destruct out as [f|]; [|done].
      destruct (getPlot (api v) _); (split; [done|]); intros [[_ ?]|[? _]]; done.
    + destruct (showSaveDialog env) as [f|]; cbn -[truthy].
      * destruct (getPlot _ _); (split; [done|]); intros [[_ ?]|[_ ?]]; done.
      * split; [done|]. by intros _.
Qed.

Lemma exportPlot_frame_and_cancel_witness :
  filter (λ e, isTransfer e = true)
    (effects (exportPlot
                (mkEnv (mkWebviewPanel false) None None false false false true "vscode"
                   multirow 10 100 false (λ _, None) (λ _ _, sample_api []))
                (sample_viewer None ["1"; "2"] (Some "2")) None None None))
  = [].
Proof.
  apply (exportPlot_frame_and_cancel
           (mkEnv (mkWebviewPanel false) None None false false false true "vscode"
              multirow 10 100 false (λ _, None) (λ _ _, sample_api []))
           (sample_viewer None ["1"; "2"] (Some "2")) None None None).
  left. split; reflexivity.
Defined.

(** X12. Without argument, and with the empty string, which is falsy,
    [togglePreviewPlots] moves from multirow to scroll, from scroll to
    hidden and from hidden to multirow, so that three calls lead back to
    where they started; a layout that is none of the three is left as it
    is. A non-empty argument is stored as the layout, whatever string it
    is. Nothing but the layout changes, and each call tells the webview,
    if there is one, the layout it ends with. *)
Theorem togglePreviewPlots_cycle :
  ∀ (v : HttpgdViewer),
    let step v := (togglePreviewPlots v None).1 in
    (previewPlotLayout v = "multirow" → previewPlotLayout (step v) = "scroll")
    ∧ (previewPlotLayout v = "scroll" → previewPlotLayout (step v) = "hidden")
    ∧ (previewPlotLayout v = "hidden" → previewPlotLayout (step v) = "multirow")
    ∧ (previewPlotLayout v ∈ ["multirow"; "scroll"; "hidden"] →
       previewPlotLayout (step (step (step v))) = previewPlotLayout v)
    ∧ (previewPlotLayout v ∉ ["multirow"; "scroll"; "hidden"] → step v = v)
    ∧ togglePreviewPlots v (Some "") = togglePreviewPlots v None
    ∧ (∀ l, l ≠ "" → previewPlotLayout (togglePreviewPlots v (Some l)).1 = l)
    ∧ (∀ force,
         (togglePreviewPlots v force).1
         = set_previewPlotLayout (previewPlotLayout (togglePreviewPlots v force).1) v
         ∧ (togglePreviewPlots v force).2
           = match webviewPanel v with
             | Some _ =>
                 [PostMessage
                    (PreviewPlotLayoutMessage
                       (previewPlotLayout (togglePreviewPlots v force).1))]
             | None => []
             end).
Proof.
  intros v. cbn zeta.
  assert (∀ w, previewPlotLayout w = "multirow" →
               (togglePreviewPlots w None).1 = set_previewPlotLayout "scroll" w) as Hm.
  { intros w E. unfold togglePreviewPlots. cbn [truthy fst].
    rewrite decide_True by done. done. }
  assert (∀ w, previewPlotLayout w = "scroll" →
               (togglePreviewPlots w None).1 = set_previewPlotLayout "hidden" w) as Hs.
  { intros w E. unfold togglePreviewPlots. cbn [truthy fst].
    rewrite decide_False by (rewrite E; discriminate).
    rewrite decide_True by done. done. }
  assert (∀ w, previewPlotLayout w = "hidden" →
               (togglePreviewPlots w None).1 = set_previewPlotLayout "multirow" w) as Hh.
  { intros w E. unfold togglePreviewPlots. cbn [truthy fst].
    rewrite !decide_False by (rewrite E; discriminate).
    rewrite decide_True by done. done. }
  split; [by intros E; rewrite Hm|].
  split; [by intros E; rewrite Hs|].
  split; [by intros E; rewrite Hh|].
  split.
  { intros Hin. repeat (apply elem_of_cons in Hin as [E|Hin]);
      [| | |by apply elem_of_nil in Hin].
    - rewrite (Hm v E), (Hs (set_previewPlotLayout "scroll" v) eq_refl),
        (Hh (set_previewPlotLayout "hidden" (set_previewPlotLayout "scroll" v)) eq_refl).
      by rewrite E.
    - rewrite (Hs v E), (Hh (set_previewPlotLayout "hidden" v) eq_refl),
        (Hm (set_previewPlotLayout "multirow" (set_previewPlotLayout "hidden" v)) eq_refl).
      by rewrite E.
    - rewrite (Hh v E), (Hm (set_previewPlotLayout "multirow" v) eq_refl),
        (Hs (set_previewPlotLayout "scroll" (set_previewPlotLayout "multirow" v)) eq_refl).
      by rewrite E. }
  split.
  { intros Hn. unfold togglePreviewPlots. cbn [truthy fst].
    rewrite !decide_False; [done|..]; intros E; apply Hn; rewrite E;
      apply (bool_decide_unpack _); by vm_compute. }
  split; [done|].
  split.
  { intros l Hl. unfold togglePreviewPlots. cbn [fst truthy default].
    apply String.eqb_neq in Hl. by rewrite Hl. }
  intros force. unfold togglePreviewPlots, postWebviewMessage. cbn [fst snd].
  destruct (truthy force); [by destruct v|].
  repeat (destruct (decide _); [by destruct v|]).
  split; [by destruct v|done].
Qed.

Lemma togglePreviewPlots_cycle_witness :
  previewPlotLayout
    (togglePreviewPlots (sample_viewer (Some (mkWebviewPanel true)) [] None) None).1
  = "scroll"
  ∧ previewPlotLayout
      (togglePreviewPlots
         (togglePreviewPlots (sample_viewer None [] None) (Some "grid")).1 None).1
    = "grid".
Proof.
  split.
  - apply (togglePreviewPlots_cycle (sample_viewer (Some (mkWebviewPanel true)) [] None)).
    reflexivity.
  - destruct (togglePreviewPlots_cycle
                (togglePreviewPlots (sample_viewer None [] None) (Some "grid")).1)
      as (_ & _ & _ & _ & H & _).
    rewrite H; [reflexivity|].
    apply (bool_decide_unpack _). by vm_compute.
Defined.

Lemma startGuestHeartbeat_once (env : Env) (v : HttpgdViewer) :
  (startGuestHeartbeat env (startGuestHeartbeat env v).1).2 = [].
Proof.
  unfold startGuestHeartbeat.
  destruct (isGuest env); cbn; [|done].
  destruct (guestConnectionTimer v) eqn:Ht; cbn; by rewrite ?Ht.
Qed.

(** X13. [show] leaves the viewer with a display surface and asks the
    manager to register it; a viewer that has one is only revealed: no
    second panel is created, the page is not rebuilt, and a heartbeat that
    runs is not started again. *)
Theorem show_creates_one_panel :
  ∀ (env : Env) (v : HttpgdViewer) (a b : option bool),
    let r1 := show env v a in
    let r2 := show env r1.1 b in
    webviewPanel r1.1 ≠ None
    ∧ RegisterActiveViewer ∈ r1.2
    ∧ r2.2 = [Reveal (default (showOptions_preserveFocus v) b); RegisterActiveViewer]
    ∧ webviewPanel r2.1 = webviewPanel r1.1
    ∧ plots r2.1 = plots v ∧ activePlot r2.1 = activePlot v.
Proof.
  intros env v a b. cbn zeta.
  assert (∀ w, (isGuest env = true → guestConnectionTimer w = true) →
            webviewPanel w ≠ None →
            show env w b
            = (w, [Reveal (default (showOptions_preserveFocus w) b); RegisterActiveViewer]))
    as Hsecond.
  { intros w Hg Hw. unfold show, startGuestHeartbeat.
    destruct (webviewPanel w); [|done].
    destruct (isGuest env); cbn; [by rewrite (Hg eq_refl)|done]. }
  assert (webviewPanel (show env v a).1 ≠ None
          ∧ (isGuest env = true → guestConnectionTimer (show env v a).1 = true)
          ∧ showOptions_preserveFocus (show env v a).1 = showOptions_preserveFocus v
          ∧ plots (show env v a).1 = plots v ∧ activePlot (show env v a).1 = activePlot v
          ∧ RegisterActiveViewer ∈ (show env v a).2) as (H1 & H2 & H3 & H4 & H5 & H6).
  { unfold show, refreshHtml, startGuestHeartbeat.
    destruct (webviewPanel v) eqn:Hw; cbn; rewrite ?Hw;
      destruct (isGuest env); cbn; destruct (guestConnectionTimer v) eqn:Ht; cbn;
      rewrite ?Hw, ?Ht; (repeat split; try done);
      repeat first [ apply list_elem_of_here | apply list_elem_of_further
                   | (apply elem_of_app; right) ]. }
  rewrite (Hsecond _ H2 H1). cbn [fst snd]. rewrite H3. done.
Qed.

(** ** More on the registry *)

Lemma delete_first_filter (l : list nat) (i : nat) (r : nat) :
  NoDup l → l !! i = Some r → delete i l = filter (λ x, x ≠ r) l.
Proof.
  revert i. induction l as [|x l IH]; intros i Hnd Hi; [done|].
  apply NoDup_cons in Hnd as [Hx Hnd]. destruct i as [|i]; cbn in Hi.
  - injection Hi as ->. rewrite filter_cons_False by (intros ?; done). cbn.
    symmetry. apply filter_all, Forall_forall. intros y Hy ->. done.
  - rewrite filter_cons_True.
    + cbn. f_equal. by apply IH.
    + intros ->. apply Hx. by apply list_elem_of_lookup_2 in Hi.
Qed.

Lemma viewers_registerActiveViewer (m : HttpgdManager) (r : ViewerRef) :
  NoDup (viewers m) →
  viewers (registerActiveViewer m r) = r :: filter (λ x, x ≠ r) (viewers m).
Proof.
  intros Hnd. unfold registerActiveViewer, js_indexOf, js_findIndex.
  destruct (list_find _ _) as [[i x]|] eqn:E.
  - apply list_find_Some in E as (Hi & -> & _).
    rewrite decide_True by lia. cbn. unfold splice1. rewrite decide_False by lia.
    rewrite Nat2Z.id. f_equal. by apply delete_first_filter.
  - rewrite decide_False by lia. cbn. f_equal. symmetry.
    apply list_find_None in E. apply filter_all.
    eapply Forall_impl; [exact E|]. intros y Hy ->. by apply Hy.
Qed.

Lemma NoDup_move_to_front (l : list nat) (r : nat) :
  NoDup l → NoDup (r :: filter (λ x, x ≠ r) l).
Proof.
  intros Hnd. apply NoDup_cons. split.
  - by intros [Hne _]%list_elem_of_filter.
  - by apply NoDup_filter.
Qed.

(** X14. On a list of viewers without repetition [registerActiveViewer]
    moves the viewer to the front, or puts it there when it is new, and keeps
    the others in their order; the list stays without repetition, and
    registering a second time changes nothing. Buckets and viewer objects
    are not touched. *)
Theorem registerActiveViewer_moves_to_front :
  ∀ (m : HttpgdManager) (r : ViewerRef),
    NoDup (viewers m) →
    let m' := registerActiveViewer m r in
    viewers m' = r :: filter (λ x, x ≠ r) (viewers m)
    ∧ NoDup (viewers m')
    ∧ viewers (registerActiveViewer m' r) = viewers m'
    ∧ recentlyActiveViewers m' = recentlyActiveViewers m
    ∧ heap m' = heap m.
Proof.
  intros m r Hnd m'.
  assert (viewers m' = r :: filter (λ x, x ≠ r) (viewers m)) as E
    by (by apply viewers_registerActiveViewer).
  assert (NoDup (viewers m')) as Hnd' by (rewrite E; by apply NoDup_move_to_front).
  split; [done|]. split; [done|]. split.
  - rewrite viewers_registerActiveViewer by done. rewrite E at 1.
    rewrite filter_cons_False by (intros ?; done). rewrite E. f_equal.
    apply filter_all, Forall_forall. by intros y [Hy _]%list_elem_of_filter.
  - unfold m', registerActiveViewer. by destruct (decide _).
Qed.

Lemma registerActiveViewer_moves_to_front_witness :
  viewers (registerActiveViewer (set_viewers [3; 1; 2]%nat new_HttpgdManager) 2%nat)
  = [2; 3; 1]%nat.
Proof.
  apply (registerActiveViewer_moves_to_front (set_viewers [3; 1; 2]%nat new_HttpgdManager) 2%nat).
  apply (bool_decide_unpack _). by vm_compute.
Defined.

Lemma registerActiveViewer_frame (m : HttpgdManager) (r : ViewerRef) :
  let m' := registerActiveViewer m r in
  heap m' = heap m ∧ recentlyActiveViewers m' = recentlyActiveViewers m
  ∧ lastPlotUrl m' = lastPlotUrl m ∧ lastPlotPid m' = lastPlotPid m
  ∧ sharedServers m' = sharedServers m ∧ viewerOptions m' = viewerOptions m.
Proof. cbn zeta. unfold registerActiveViewer. by destruct (decide _). Qed.

Lemma parentCalls_frame (m : HttpgdManager) (r : ViewerRef) (es : list Effect) :
  let m' := parentCalls m r es in
  heap m' = heap m ∧ recentlyActiveViewers m' = recentlyActiveViewers m
  ∧ lastPlotUrl m' = lastPlotUrl m ∧ lastPlotPid m' = lastPlotPid m
  ∧ sharedServers m' = sharedServers m ∧ viewerOptions m' = viewerOptions m.
Proof.
  cbn zeta. unfold parentCalls. revert m.
  induction es as [|e es IH]; intros m; [done|]. cbn [foldl].
  destruct e; try apply IH.
  destruct (IH (registerActiveViewer m r)) as (-> & -> & -> & -> & -> & ->).
  apply registerActiveViewer_frame.
Qed.

(** A viewer that is at the front of a list without repetition stays where
    it is, whatever it asks of its parent. *)
Lemma parentCalls_at_front (m : HttpgdManager) (r : ViewerRef) (es : list Effect)
    (l : list ViewerRef) :
  viewers m = r :: l → NoDup (r :: l) → viewers (parentCalls m r es) = r :: l.
Proof.
  intros Hv Hnd. unfold parentCalls. revert m Hv.
  induction es as [|e es IH]; intros m Hv; [done|]. cbn [foldl].
  destruct e; try (by apply IH). apply IH.
  rewrite viewers_registerActiveViewer by (by rewrite Hv). rewrite Hv.
  rewrite filter_cons_False by (intros ?; done). f_equal.
  apply NoDup_cons in Hnd as [Hr _].
  apply filter_all, Forall_forall. intros y Hy ->. done.
Qed.

Lemma host_show (env : Env) (v : HttpgdViewer) (pf : option bool) :
  host (show env v pf).1 = host v.
Proof.
  unfold show, refreshHtml, startGuestHeartbeat.
  destruct (webviewPanel v) eqn:Hw; cbn; rewrite ?Hw;
    by destruct (negb (isGuest env) || guestConnectionTimer v).
Qed.

Lemma showRef_spec (env : Env) (m : HttpgdManager) (r : ViewerRef) (pf : option bool)
    (v : HttpgdViewer) (l : list ViewerRef) :
  heap m !! r = Some v →
  viewers m = r :: l → NoDup (r :: l) →
  let m' := (showRef env m r pf).1 in
  viewers m' = r :: l
  ∧ heap m' = <[r := (show env v pf).1]> (heap m)
  ∧ recentlyActiveViewers m' = recentlyActiveViewers m
  ∧ lastPlotUrl m' = lastPlotUrl m ∧ lastPlotPid m' = lastPlotPid m.
Proof.
  intros Hv Hl Hnd. cbn zeta. unfold showRef. rewrite Hv.
  destruct (show env v pf) as [v' es]. cbn [fst].
  set (m1 := set_heap _ m).
  destruct (parentCalls_frame m1 r es) as (-> & -> & -> & -> & _).
  split; [|done]. by apply parentCalls_at_front.
Qed.

Lemma hostOf_insert_show (env : Env) (h : list HttpgdViewer) (r x : nat)
    (v : HttpgdViewer) (pf : option bool) :
  h !! r = Some v →
  host <$> <[r := (show env v pf).1]> h !! x = host <$> h !! x.
Proof.
  intros Hv. destruct (decide (r = x)) as [->|Hne].
  - rewrite list_lookup_insert_eq by (by apply lookup_lt_Some in Hv).
    rewrite Hv. cbn. by rewrite host_show.
  - by rewrite list_lookup_insert_ne.
Qed.

Lemma show_has_panel (env : Env) (v : HttpgdViewer) (pf : option bool) :
  is_Some (webviewPanel (show env v pf).1).
Proof.
  unfold show. destruct (webviewPanel v) eqn:Hw.
  - destruct (startGuestHeartbeat env v) as [v' es'] eqn:E. cbn.
    unfold startGuestHeartbeat in E.
    destruct (negb (isGuest env) || guestConnectionTimer v); injection E as <- <-;
      cbn; rewrite Hw; eauto.
  - unfold refreshHtml, startGuestHeartbeat. cbn.
    destruct (negb (isGuest env) || guestConnectionTimer v); cbn; eauto.
Qed.

Lemma js_find_Some {A} (P : A → Prop) `{!∀ x, Decision (P x)} (l : list A) (x : A) :
  js_find P l = Some x → ∃ i, list_find P l = Some (i, x).
Proof.
  unfold js_find. destruct (list_find P l) as [[i y]|]; cbn; [|done].
  intros [= ->]. eauto.
Qed.

(** X15. [showViewer] for an address of which the owner's bucket already
    has a viewer constructs nothing: the first such viewer of the bucket is
    shown and moved to the front of [this.viewers], the others keep their
    order, and the bucket is as before. *)
Theorem showViewer_known_to_owner :
  ∀ (env : Env) (m : HttpgdManager) (urlString pid host : string) (token : option string)
    (bucket : list ViewerRef) (r : ViewerRef),
    URL env urlString = Some (host, token) →
    NoDup (viewers m) →
    recentlyActiveViewers m !! pid = Some bucket →
    js_find (λ x, hostOf m x = Some host) bucket = Some r →
    let res := showViewer env m urlString pid in
    let m' := res.1.1 in
    res.2 = None
    ∧ length (heap m') = length (heap m)
    ∧ viewers m' = r :: filter (λ x, x ≠ r) (viewers m)
    ∧ hostOf m' r = Some host
    ∧ is_Some (heap m' !! r ≫= webviewPanel)
    ∧ recentlyActiveViewers m' !! pid = Some bucket.
Proof.
  intros env m urlString pid host token bucket r Hurl Hnd Hb Hf. cbn zeta.
  destruct (js_find_Some _ _ _ Hf) as [i Hlf].
  apply list_find_Some in Hlf as (_ & Hhost & _).
  unfold hostOf in Hhost. destruct (heap m !! r) as [v|] eqn:Hv; [|done].
  unfold showViewer. cbv zeta. rewrite Hurl.
  set (m0 := mkHttpgdManager _ _ _ _ (Some urlString) (Some pid) _).
  change (recentlyActiveViewers m0) with (recentlyActiveViewers m). rewrite Hb.
  change (default [] (Some bucket)) with bucket.
  change (js_find (λ r0, hostOf m0 r0 = Some host) bucket)
    with (js_find (λ x, hostOf m x = Some host) bucket).
  rewrite Hf.
  change (set_viewers (r :: viewers _) _) with (registerActiveViewer m0 r).
  pose proof (viewers_registerActiveViewer m0 r Hnd) as Hreg.
  change (viewers m0) with (viewers m) in Hreg.
  destruct (registerActiveViewer_frame m0 r) as (Hh & Hbk & _).
  set (m1 := registerActiveViewer m0 r) in *.
  assert (heap m1 !! r = Some v) as Hv1 by (by rewrite Hh).
  pose proof (showRef_spec env m1 r (Some true) v _ Hv1 Hreg
                (NoDup_move_to_front _ r Hnd)) as (Hs1 & Hs2 & Hs3 & _).
  destruct (showRef env m1 r (Some true)) as [m2 es2]. cbn [fst] in *.
  cbn [fst snd viewers heap recentlyActiveViewers].
  rewrite Hs1, Hs2, Hs3, Hh, Hbk. unfold hostOf. cbn [heap].
  change (recentlyActiveViewers m0) with (recentlyActiveViewers m).
  change (heap m0) with (heap m).
  pose proof (lookup_lt_Some _ _ _ Hv) as Hlt.
  rewrite length_insert, lookup_insert_eq, list_lookup_insert_eq by done.
  cbn. rewrite host_show. cbn in Hhost. injection Hhost as ->.
  repeat split; try done. apply show_has_panel.
Qed.

Lemma showViewer_known_to_owner_witness :
  viewers (showViewer sample_env
             (showViewer sample_env new_HttpgdManager sample_url "4711").1.1
             sample_url "4711").1.1
  = 0%nat :: filter (λ x, x ≠ 0%nat)
               (viewers (showViewer sample_env new_HttpgdManager sample_url "4711").1.1).
Proof.
  apply (showViewer_known_to_owner sample_env
           (showViewer sample_env new_HttpgdManager sample_url "4711").1.1
           sample_url "4711" "127.0.0.1:5900" (Some "abc") [0%nat] 0%nat);
    [reflexivity | apply (bool_decide_unpack _); by vm_compute
    | vm_compute; reflexivity | vm_compute; reflexivity].
Defined.

(** X16. [showViewer] for an address that the owner's bucket does not have
    but [this.viewers] does constructs nothing either: the first viewer of
    [this.viewers] with that host is shown, moved to the front and entered
    at the front of the owner's bucket. *)
Theorem showViewer_known_to_other_owner :
  ∀ (env : Env) (m : HttpgdManager) (urlString pid host : string) (token : option string)
    (r : ViewerRef),
    URL env urlString = Some (host, token) →
    NoDup (viewers m) →
    js_find (λ x, hostOf m x = Some host) (default [] (recentlyActiveViewers m !! pid)) = None →
    js_find (λ x, hostOf m x = Some host) (viewers m) = Some r →
    let res := showViewer env m urlString pid in
    let m' := res.1.1 in
    res.2 = None
    ∧ length (heap m') = length (heap m)
    ∧ viewers m' = r :: filter (λ x, x ≠ r) (viewers m)
    ∧ hostOf m' r = Some host
    ∧ is_Some (heap m' !! r ≫= webviewPanel)
    ∧ recentlyActiveViewers m' !! pid = Some (r :: default [] (recentlyActiveViewers m !! pid)).
Proof.
  intros env m urlString pid host token r Hurl Hnd Hnone Hf. cbn zeta.
  destruct (js_find_Some _ _ _ Hf) as [i Hlf].
  pose proof Hlf as (Hi & Hhost & _)%list_find_Some.
  unfold hostOf in Hhost. destruct (heap m !! r) as [v|] eqn:Hv; [|done].
  assert (r ∉ default [] (recentlyActiveViewers m !! pid)) as Hnin.
  { unfold js_find in Hnone. destruct (list_find _ _) eqn:E in Hnone; [done|].
    apply list_find_None in E. rewrite Forall_forall in E. intros Hin.
    apply (E r Hin). unfold hostOf. by rewrite Hv. }
  unfold showViewer. cbv zeta. rewrite Hurl.
  set (m0 := mkHttpgdManager _ _ _ _ (Some urlString) (Some pid) _).
  change (recentlyActiveViewers m0) with (recentlyActiveViewers m).
  change (js_find (λ r0, hostOf m0 r0 = Some host) (default [] (recentlyActiveViewers m !! pid)))
    with (js_find (λ x, hostOf m x = Some host) (default [] (recentlyActiveViewers m !! pid))).
  rewrite Hnone.
  change (js_findIndex (λ r0, hostOf m0 r0 = Some host) (viewers m0))
    with (js_findIndex (λ x, hostOf m x = Some host) (viewers m)).
  unfold js_findIndex. rewrite Hlf.
  pose proof (lookup_lt_Some _ _ _ Hi) as Hilt.
  unfold js_index. rewrite decide_False by lia. rewrite Nat2Z.id.
  change (viewers m0) with (viewers m). rewrite Hi.
  unfold splice1. rewrite decide_False by lia. rewrite Nat2Z.id.
  rewrite (delete_first_filter _ i r) by done.
  set (m1 := set_viewers (r :: _) _).
  assert (heap m1 !! r = Some v) as Hv1 by done.
  pose proof (showRef_spec env m1 r (Some true) v _ Hv1 eq_refl
                (NoDup_move_to_front _ r Hnd)) as (Hs1 & Hs2 & Hs3 & _).
  destruct (showRef env m1 r (Some true)) as [m2 es2]. cbn [fst] in *.
  rewrite decide_False by done.
  cbn [fst snd viewers heap recentlyActiveViewers].
  rewrite Hs1, Hs2, Hs3. unfold hostOf. cbn [heap recentlyActiveViewers set_viewers].
  pose proof (lookup_lt_Some _ _ _ Hv) as Hlt.
  rewrite length_insert, lookup_insert_eq, list_lookup_insert_eq by done.
  cbn. rewrite host_show. cbn in Hhost. injection Hhost as ->.
  repeat split; try done. apply show_has_panel.
Qed.

Lemma showViewer_known_to_other_owner_witness :
  recentlyActiveViewers
    (showViewer sample_env
       (showViewer sample_env
          (showViewer sample_env new_HttpgdManager sample_url "4711").1.1
          sample_url "4711").1.1
       sample_url "4712").1.1 !! "4712"
  = Some [0%nat].
Proof.
  apply (showViewer_known_to_other_owner sample_env
           (showViewer sample_env
              (showViewer sample_env new_HttpgdManager sample_url "4711").1.1
              sample_url "4711").1.1
           sample_url "4712" "127.0.0.1:5900" (Some "abc") 0%nat);
    [reflexivity | apply (bool_decide_unpack _); by vm_compute
    | vm_compute; reflexivity | vm_compute; reflexivity].
Defined.

Lemma showRef_frame (env : Env) (m : HttpgdManager) (r : ViewerRef) (pf : option bool) :
  let m' := (showRef env m r pf).1 in
  lastPlotUrl m' = lastPlotUrl m ∧ lastPlotPid m' = lastPlotPid m
  ∧ recentlyActiveViewers m' = recentlyActiveViewers m
  ∧ length (heap m') = length (heap m).
Proof.
  cbn zeta. unfold showRef. destruct (heap m !! r) as [v|]; [|done].
  destruct (show env v pf) as [v' es]. cbn [fst].
  destruct (parentCalls_frame (set_heap (<[r:=v']> (heap m)) m) r es)
    as (-> & -> & -> & -> & _).
  cbn. by rewrite length_insert.
Qed.

Lemma showViewer_lastPlot (env : Env) (m : HttpgdManager) (urlString pid : string) :
  let m' := (showViewer env m urlString pid).1.1 in
  lastPlotUrl m' = Some urlString ∧ lastPlotPid m' = Some pid.
Proof.
  cbn zeta. unfold showViewer. cbv zeta.
  destruct (URL env urlString) as [[host token]|]; [|done].
  set (m0 := mkHttpgdManager _ _ _ _ (Some urlString) (Some pid) _).
  destruct (js_find _ _) as [r|].
  - set (m1 := set_viewers _ _).
    pose proof (showRef_frame env m1 r (Some true)) as (H1 & H2 & _).
    destruct (showRef env m1 r (Some true)) as [m2 es]. cbn [fst snd] in *.
    cbn [lastPlotUrl lastPlotPid]. rewrite H1, H2. unfold m1. by destruct (decide _).
  - destruct (js_index _ _) as [r|].
    + set (m1 := set_viewers _ _).
      pose proof (showRef_frame env m1 r (Some true)) as (H1 & H2 & _).
      destruct (showRef env m1 r (Some true)) as [m2 es]. cbn [fst snd] in *.
      cbn [lastPlotUrl lastPlotPid]. by rewrite H1, H2.
    + destruct (new_HttpgdViewer env host _ (Some pid)) as [v es].
      destruct (isHost env && autoShareBrowser env); [destruct (shareServer env)|]; done.
Qed.

(** X17. [showViewer] records the url and the owner as last plot before it
    looks at the url. A url that [URL] rejects makes it throw, and then the
    record of the last plot is all that has changed: no viewer is
    constructed, shown or registered. A url that parses never throws. *)
Theorem showViewer_records_last_plot :
  ∀ (env : Env) (m : HttpgdManager) (urlString pid : string),
    let res := showViewer env m urlString pid in
    lastPlotUrl res.1.1 = Some urlString
    ∧ lastPlotPid res.1.1 = Some pid
    ∧ match URL env urlString with
      | Some _ => res.2 = None
      | None =>
          res.2 = Some TypeError ∧ res.1.2 = []
          ∧ viewers res.1.1 = viewers m ∧ heap res.1.1 = heap m
          ∧ recentlyActiveViewers res.1.1 = recentlyActiveViewers m
      end.
Proof.
  intros env m urlString pid res.
  destruct (showViewer_lastPlot env m urlString pid) as [H1 H2].
  split; [done|]. split; [done|].
  unfold res, showViewer. cbv zeta.
  destruct (URL env urlString) as [[host token]|]; [|done].
  destruct (js_find _ _) as [r|].
  - by destruct (showRef env _ r (Some true)).
  - destruct (js_index _ _) as [r|].
    + by destruct (showRef env _ r (Some true)).
    + destruct (new_HttpgdViewer env host _ (Some pid)) as [v es].
      destruct (isHost env && autoShareBrowser env); [destruct (shareServer env)|]; done.
Qed.

(** ** Dropping an owner *)

Lemma disposePanel_panel (h : list HttpgdViewer) (r x : ViewerRef) :
  disposePanel h r !! x ≫= webviewPanel
  = if decide (x = r) then None else h !! x ≫= webviewPanel.
Proof.
  unfold disposePanel. destruct (decide (x = r)) as [->|Hne].
  - destruct (h !! r) as [v|] eqn:Hv; [|by rewrite Hv].
    destruct (webviewPanel v) eqn:Hw; [|by rewrite Hv].
    rewrite list_lookup_insert_eq by (by apply lookup_lt_Some in Hv). done.
  - destruct (h !! r) as [v|]; [|done]. destruct (webviewPanel v); [|done].
    by rewrite list_lookup_insert_ne.
Qed.

Lemma disposePanel_host (h : list HttpgdViewer) (r x : ViewerRef) :
  host <$> disposePanel h r !! x = host <$> h !! x
  ∧ length (disposePanel h r) = length h.
Proof.
  unfold disposePanel. destruct (h !! r) as [v|] eqn:Hv; [|done].
  destruct (webviewPanel v); [|done]. rewrite length_insert. split; [|done].
  destruct (decide (r = x)) as [->|Hne].
  - rewrite list_lookup_insert_eq by (by apply lookup_lt_Some in Hv). by rewrite Hv.
  - by rewrite list_lookup_insert_ne.
Qed.

Lemma foldl_disposePanel (bucket : list ViewerRef) (h : list HttpgdViewer) (x : ViewerRef) :
  (foldl disposePanel h bucket !! x ≫= webviewPanel
   = if decide (x ∈ bucket) then None else h !! x ≫= webviewPanel)
  ∧ host <$> foldl disposePanel h bucket !! x = host <$> h !! x
  ∧ length (foldl disposePanel h bucket) = length h.
Proof.
  revert h. induction bucket as [|r bucket IH]; intros h.
  - cbn. rewrite decide_False by apply not_elem_of_nil. done.
  - cbn [foldl]. destruct (IH (disposePanel h r)) as (E1 & E2 & E3).
    rewrite E1, E2, E3, disposePanel_panel.
    destruct (disposePanel_host h r x) as [-> ->]. split; [|done].
    destruct (decide (x ∈ bucket)) as [Hin|Hnin].
    + rewrite decide_True; [done|by right].
    + destruct (decide (x = r)) as [->|Hne].
      * rewrite decide_True; [done|by left].
      * rewrite decide_False; [done|]. by intros [?|?]%elem_of_cons.
Qed.

(** X18. [dropPid] for an owner that has a bucket deletes the bucket and
    leaves every viewer of it without display surface, so that [hasViewer]
    is false for the owner. It does not take the viewers out of
    [this.viewers], does not change their host, and leaves the buckets of
    other owners as they are. *)
Theorem dropPid_closes_and_forgets :
  ∀ (m : HttpgdManager) (pid : string) (bucket : list ViewerRef) (r : ViewerRef),
    recentlyActiveViewers m !! pid = Some bucket →
    r ∈ bucket →
    let m' := dropPid m pid in
    recentlyActiveViewers m' !! pid = None
    ∧ hasViewer m' pid = false
    ∧ heap m' !! r ≫= webviewPanel = None
    ∧ viewers m' = viewers m
    ∧ hostOf m' r = hostOf m r
    ∧ (∀ q, q ≠ pid → recentlyActiveViewers m' !! q = recentlyActiveViewers m !! q).
Proof.
  intros m pid bucket r Hb Hr m'. unfold m', dropPid, hasViewer, hostOf. rewrite Hb.
  cbn [recentlyActiveViewers heap viewers].
  rewrite lookup_delete_eq.
  destruct (foldl_disposePanel bucket (heap m) r) as (E1 & E2 & _).
  rewrite E1, E2, decide_True by done.
  repeat split; try done. intros q Hq. by rewrite lookup_delete_ne.
Qed.

Lemma dropPid_closes_and_forgets_witness :
  hasViewer
    (dropPid (showViewer sample_env
                (showViewer sample_env new_HttpgdManager sample_url "4711").1.1
                sample_url "4711").1.1 "4711") "4711"
  = false.
Proof.
  apply (dropPid_closes_and_forgets
           (showViewer sample_env
              (showViewer sample_env new_HttpgdManager sample_url "4711").1.1
              sample_url "4711").1.1 "4711" [0%nat] 0%nat);
    [vm_compute; reflexivity | apply (bool_decide_unpack _); by vm_compute].
Defined.

Lemma dropPid_unknown (m : HttpgdManager) (pid : string) :
  recentlyActiveViewers m !! pid = None → dropPid m pid = m.
Proof. intros H. unfold dropPid. by rewrite H. Qed.

(** A viewer that lost its display surface this way is still in
    [this.viewers] but is passed over by [getRecentViewer]. *)
Lemma getRecentViewer_has_panel (m : HttpgdManager) (r : ViewerRef) :
  getRecentViewer m = Some r → r ∈ viewers m ∧ is_Some (heap m !! r ≫= webviewPanel).
Proof.
  intros [i (Hi & Hp & _)%list_find_Some]%js_find_Some.
  split; [|done]. by apply list_elem_of_lookup_2 in Hi.
Qed.

(** X19. [closeGuestViewers] after a show: the last plot is forgotten when
    it was shown for the guest owner and kept when it was shown for any
    other owner; the guest bucket is gone in both cases. *)
Theorem closeGuestViewers_after_show :
  ∀ (env : Env) (m : HttpgdManager) (urlString pid : string),
    let m1 := (showViewer env m urlString pid).1.1 in
    let m2 := closeGuestViewers m1 in
    lastPlotUrl m2 = (if decide (pid = GUEST_PID) then None else Some urlString)
    ∧ lastPlotPid m2 = (if decide (pid = GUEST_PID) then None else Some pid)
    ∧ recentlyActiveViewers m2 !! GUEST_PID = None
    ∧ viewers m2 = viewers m1.
Proof.
  intros env m urlString pid m1 m2.
  destruct (showViewer_lastPlot env m urlString pid) as [H1 H2]. fold m1 in H1, H2.
  assert (lastPlotUrl (dropPid m1 GUEST_PID) = Some urlString
          ∧ lastPlotPid (dropPid m1 GUEST_PID) = Some pid
          ∧ recentlyActiveViewers (dropPid m1 GUEST_PID) !! GUEST_PID = None
          ∧ viewers (dropPid m1 GUEST_PID) = viewers m1) as (D1 & D2 & D3 & D4).
  { unfold dropPid. destruct (recentlyActiveViewers m1 !! GUEST_PID) eqn:E; [|done].
    cbn. by rewrite lookup_delete_eq. }
  unfold m2, closeGuestViewers. rewrite D2.
  destruct (decide (pid = GUEST_PID)) as [->|Hne].
  - by rewrite decide_True.
  - rewrite decide_False by congruence. done.
Qed.

(** ** More on the bridge *)

Module ShareMore.
Import Share.

Lemma getProp_spread (rest : list JsValue) (i : nat) :
  match spread rest with
  | JsObject props => getProp (pretty i) props = rest !! i
  | _ => False
  end.
Proof.
  unfold spread, getProp.
  destruct (rest !! i) as [x|] eqn:Hi.
  - assert (list_find (λ kv : string * JsValue, kv.1 = pretty i)
              (imap (λ i x, (pretty i, x)) rest) = Some (i, (pretty i, x))) as ->; [|done].
    apply list_find_Some. split; [|split].
    + by rewrite list_lookup_imap, Hi.
    + done.
    + intros j y Hj Hlt. rewrite list_lookup_imap in Hj.
      destruct (rest !! j); [|done]. injection Hj as <-. cbn.
      intros Heq%(inj pretty). lia.
  - assert (list_find (λ kv : string * JsValue, kv.1 = pretty i)
              (imap (λ i x, (pretty i, x)) rest) = None) as ->; [|done].
    apply list_find_None, Forall_forall. intros [k y] Hin.
    apply list_elem_of_lookup in Hin as [j Hj]. rewrite list_lookup_imap in Hj.
    destruct (rest !! j) eqn:Hjr; [|done]. injection Hj as <- <-. cbn.
    intros Heq%(inj pretty). subst j. by rewrite Hi in Hjr.
Qed.

Lemma spread_elem_round_trip_aux (rest : list JsValue) (i : nat) :
  js_elem (spread rest) i = Some (param rest i).
Proof.
  pose proof (getProp_spread rest i) as H.
  unfold js_elem, param. unfold spread in *. by rewrite H.
Qed.

(** X20. What a host sends with [notify(name, { ...rest })] a guest handler
    reads back by position: [args[i]] of the spread object is [rest[i]], and
    [undefined] beyond the end. *)
Theorem spread_elem_round_trip :
  ∀ (rest : list JsValue) (i : nat),
    js_elem (spread rest) i = Some (param rest i).
Proof.
  intros rest i. pose proof (getProp_spread rest i) as H.
  unfold js_elem, param. unfold spread in *. by rewrite H.
Qed.

Lemma notifyMessage_payload (e' : ShareEnv) (text : string) (t : MessageType) :
  guest_NotifyMessage e' (spread [JsString text; JsString (MessageType_value t)])
  = ((if bool_decide (text = "No active host session to attach."
                      ∨ text = "The host has not enabled guest attach.")
      then [ClearGuestAttachRequested] else [])
     ++ [shownAs t (JsString text)], None).
Proof.
  unfold guest_NotifyMessage. rewrite !spread_elem_round_trip_aux.
  change (param [JsString text; JsString (MessageType_value t)] 0) with (JsString text).
  change (param [JsString text; JsString (MessageType_value t)] 1)
    with (JsString (MessageType_value t)).
  f_equal. f_equal.
  - unfold isString.
    destruct (String.eqb_spec text "No active host session to attach.") as [->|H1].
    { by rewrite bool_decide_eq_true_2 by (by left). }
    destruct (String.eqb_spec text "The host has not enabled guest attach.") as [->|H2].
    { by rewrite bool_decide_eq_true_2 by (by right). }
    by rewrite bool_decide_eq_false_2 by (by intros [?|?]).
  - by destruct t.
Qed.

(** X21. A message the host sends with [NotifyMessage] reaches the guest
    as one notification of the severity and with the text that were sent;
    the guest's pending-attach flag is cleared exactly for the two texts that
    report a refused attach. *)
Theorem notifyMessage_round_trip :
  ∀ (e e' : ShareEnv) (text : string) (t : MessageType) (payload : JsValue),
    notifyMessage e text t = Notify NotifyMessage payload →
    guest_NotifyMessage e' payload
    = ((if bool_decide (text = "No active host session to attach."
                        ∨ text = "The host has not enabled guest attach.")
        then [ClearGuestAttachRequested] else [])
       ++ [shownAs t (JsString text)], None).
Proof.
  intros e e' text t payload H. unfold notifyMessage, liveShareRequest in H.
  destruct (isGuest e); [done|]. injection H as <-.
  apply notifyMessage_payload.
Qed.

Lemma notifyMessage_round_trip_witness :
  guest_NotifyMessage sample_shareEnv
    (spread [JsString "Port in use."; JsString "error"])
  = ([ShowErrorMessage (JsString "Port in use.")], None).
Proof.
  apply (notifyMessage_round_trip sample_shareEnv sample_shareEnv "Port in use." error).
  reflexivity.
Defined.

(** X22. A host that has not enabled guest attach, or has no active
    session, answers [RequestAttachGuest] without touching its terminal: the
    guest gets one warning and its pending-attach flag is cleared. *)
Theorem attach_refused :
  ∀ (e e' : ShareEnv) (args : JsValue),
    isGuest e = false →
    shareWorkspace e && rHostService e && server e = false →
    ∃ payload text,
      host_RequestAttachGuest e args = ([Notify NotifyMessage payload], None)
      ∧ guest_NotifyMessage e' payload
        = ([ClearGuestAttachRequested; ShowWarningMessage (JsString text)], None).
Proof.
  intros e e' args Hg Hoff. unfold host_RequestAttachGuest.
  destruct (negb (shareWorkspace e) || negb (rHostService e)) eqn:H1.
  - eexists _, _. split.
    + unfold notifyMessage, liveShareRequest. rewrite Hg. reflexivity.
    + by rewrite (notifyMessage_payload e' "The host has not enabled guest attach." warning).
  - destruct (server e) eqn:H2.
    + destruct (shareWorkspace e), (rHostService e); done.
    + eexists _, _. split.
      * unfold notifyMessage, liveShareRequest. rewrite Hg. reflexivity.
      * by rewrite (notifyMessage_payload e' "No active host session to attach." warning).
Qed.

Lemma attach_refused_witness :
  ∃ payload text,
    host_RequestAttachGuest (mkShareEnv false false true true true true true true
                               (λ _, None) (λ _, None) sample_readFile) JsUndefined
    = ([Notify NotifyMessage payload], None)
    ∧ guest_NotifyMessage sample_shareEnv payload
      = ([ClearGuestAttachRequested; ShowWarningMessage (JsString text)], None).
Proof.
  apply (attach_refused (mkShareEnv false false true true true true true true
                               (λ _, None) (λ _, None) sample_readFile)
           sample_shareEnv JsUndefined); reflexivity.
Defined.

(** X23. Only a plain object can be taken for the transport context: a
    first element that is a string, a number, a boolean, [undefined], [null]
    or an array is never stripped, whatever follows; and an object is
    stripped only when it has both properties. *)
Theorem normalizeRequestArgs_keeps_non_context :
  ∀ (x : JsValue) (rest : list JsValue),
    (∀ props, x = JsObject props →
       getProp "connection" props = None ∨ getProp "session" props = None) →
    normalizeRequestArgs (JsArray (x :: rest)) = x :: rest.
Proof.
  intros x rest Hx. apply ShareFacts.normalizeRequestArgs_keeps. cbn [lookup list_lookup].
  destruct (hasContext (Some x)) eqn:E; [|done].
  apply ShareFacts.hasContext_true in E as (props & -> & H1 & H2).
  destruct (Hx props eq_refl) as [H|H]; rewrite H in *; by destruct H1, H2.
Qed.

Lemma normalizeRequestArgs_keeps_non_context_witness :
  normalizeRequestArgs (JsArray [JsNull; JsString "a"]) = [JsNull; JsString "a"].
Proof.
  apply (normalizeRequestArgs_keeps_non_context JsNull [JsString "a"]).
  intros props H. discriminate H.
Defined.

(** Only one context is stripped: a second one stays as first argument. *)
Lemma normalizeRequestArgs_strips_once (ctx1 ctx2 : JsValue) (rest : list JsValue) :
  hasContext (Some ctx1) = true →
  normalizeRequestArgs (JsArray (ctx1 :: ctx2 :: rest)) = ctx2 :: rest.
Proof. apply ShareFacts.normalizeRequestArgs_strips. Qed.

(** X24. Errors of the handlers. Called with [undefined] or [null], the
    guest handlers that read [args[0]] throw a [TypeError] and do nothing
    else; [NotifyGuestPlotManager] reads it only on an attached guest with
    a plot manager and otherwise does nothing at all. On the host,
    [RequestRunTextInTerm] with forwarding on throws a [TypeError] and runs
    nothing when its text has no string conversion; [RequestDataViewRows]
    without a server throws its own error before any request; and
    [GetFileContent] and, with a server, [RequestDataViewRows] end as the
    call they hand on ends: a rejection of [readFile] or [sessionRequest]
    is the handler's. *)
Theorem handler_errors :
  ∀ (e : ShareEnv),
    (∀ name h args,
       handlerOf Commands_guest name = Some h →
       name ∈ [NotifyRequestUpdate; NotifyWorkspaceUpdate; NotifyPlotUpdate; NotifyMessage] →
       args = JsUndefined ∨ args = JsNull →
       h e args = ([], Some JsTypeError))
    ∧ (∀ args,
         args = JsUndefined ∨ args = JsNull →
         guest_NotifyGuestPlotManager e args
         = ([], if isGuestAttached e && globalHttpgdManager e
                then Some JsTypeError else None))
    ∧ (∀ args,
         forwardCommands e = true →
         toStringThrows (param (normalizeRequestArgs args) 0) = true →
         host_RequestRunTextInTerm e args = ([], Some JsTypeError))
    ∧ (∀ args,
         server e = false →
         host_RequestDataViewRows e args = ([], Some (JsErrorMsg "R server not available")))
    ∧ (∀ args,
         server e = true →
         host_RequestDataViewRows e args
         = ([SessionRequest (param (normalizeRequestArgs args) 0)],
            sessionRequest e (param (normalizeRequestArgs args) 0)))
    ∧ (∀ args,
         let file := param (normalizeRequestArgs args) 0 in
         let encoding := param (normalizeRequestArgs args) 1 in
         let enc :=
           match encoding with
           | JsUndefined => None
           | _ => Some encoding
           end in
         host_GetFileContent e args = ([ReadFile file enc], readFile e file enc)).
Proof.
  intros e. repeat split.
  - intros name h args Hh Hin Ha.
    destruct name; cbn in Hh; try discriminate Hh; injection Hh as <-;
      try (exfalso; revert Hin; apply (bool_decide_unpack _); vm_compute; exact I);
      by destruct Ha as [-> | ->].
  - intros args [-> | ->]; unfold guest_NotifyGuestPlotManager;
      by destruct (isGuestAttached e), (globalHttpgdManager e).
  - intros args Hf Ht. unfold host_RequestRunTextInTerm. by rewrite Hf, Ht.
  - intros args Hs. unfold host_RequestDataViewRows. by rewrite Hs.
  - intros args Hs. unfold host_RequestDataViewRows. by rewrite Hs.
  - intros args. cbn zeta. unfold host_GetFileContent.
    by destruct (param (normalizeRequestArgs args) 1).
Qed.

Lemma handler_errors_witness :
  guest_NotifyPlotUpdate sample_shareEnv JsUndefined = ([], Some JsTypeError)
  ∧ host_RequestRunTextInTerm sample_shareEnv
      (JsArray [sample_context; JsObject [("toString", JsNumber 1)]])
    = ([], Some JsTypeError)
  ∧ host_GetFileContent sample_shareEnv (JsArray [JsNumber 1])
    = ([ReadFile (JsNumber 1) None], Some JsTypeError).
Proof.
  destruct (handler_errors sample_shareEnv) as (Hg & _ & Hr & _ & _ & Hf).
  split; [|split].
  - apply (Hg NotifyPlotUpdate guest_NotifyPlotUpdate JsUndefined eq_refl).
    + apply (bool_decide_unpack _). by vm_compute.
    + by left.
  - apply (Hr (JsArray [sample_context; JsObject [("toString", JsNumber 1)]]));
      reflexivity.
  - exact (Hf (JsArray [JsNumber 1])).
Defined.

End ShareMore.
